(** * fotingo: the start command, the command base class, the git adapter
      and the cacheable decorator

    A shallow embedding of

    - the [start] command pipeline ([getCommandData], [getOrCreateIssue],
      [setIssueInProgress], [shouldCreateBranch], [createBranch],
      [justReturnTheIssue], [cmd]);
    - [src/cli/FotingoCommand.ts] ([returnIfFalse], [isGitRepo],
      [getLocalChangesInformation], [getValidations], [validate], [run]);
    - [src/io/cacheable.ts] ([cacheable]);
    - the part of [src/git/Git.ts] that [test/git/Git.test.ts] exercises
      ([createBranchAndStashChanges], [getRemote]).

    Promises and single-request observables are computations that take the
    state of the outside world, return either a JavaScript error or a value,
    the new state of the world, and the list of calls they made on their
    collaborators, oldest first. *)

From Stdlib Require Import ZArith Bool List Lia Permutation.
From stdpp Require Import base option list strings pretty gmap.

Import ListNotations.
Local Open Scope string_scope.
Local Open Scope list_scope.

(** ** JavaScript values and errors *)

(** [src/git/GitError] is imported by the sources but is not part of them;
    the constructors are the codes the sources and the tests name, and the
    generic one of the error taxonomy. *)
Inductive GitErrorType :=
| BRANCH_ALREADY_EXISTS
| NOT_A_GIT_REPO
| NO_REMOTE
| GIT_COMMAND_FAILED.

(** The [code] property of a thrown object: absent, a number (the HTTP status
    of a [JiraError]) or a [GitErrorType]. *)
Inductive ErrorCode :=
| NoCode
| NumCode (n : Z)
| GitCode (t : GitErrorType).

Record JsError := mkError { code : ErrorCode; message : string }.

(** [new Error(message)] *)
Definition Error (msg : string) : JsError := mkError NoCode msg.

#[global] Instance GitErrorType_eq_dec : EqDecision GitErrorType.
Proof. solve_decision. Defined.
#[global] Instance ErrorCode_eq_dec : EqDecision ErrorCode.
Proof. solve_decision. Defined.
#[global] Instance JsError_eq_dec : EqDecision JsError.
Proof. solve_decision. Defined.

(** The values that flow through the loosely typed places of the sources: what
    a validation emits and what the cache stores. Objects are opaque and
    carry an identifier. *)
Inductive JsVal :=
| VUndefined
| VNull
| VBool (b : bool)
| VNum (n : Z)
| VNaN
| VStr (s : string)
| VObj (id : nat).

#[global] Instance JsVal_eq_dec : EqDecision JsVal.
Proof. solve_decision. Defined.

(** ToBoolean: [undefined], [null], [false], [0], [NaN] and the empty string
    are falsy, everything else is truthy. *)
Definition truthy (v : JsVal) : bool :=
  match v with
  | VUndefined | VNull | VNaN => false
  | VBool b => b
  | VNum n => negb (n =? 0)%Z
  | VStr s => negb (String.eqb s "")
  | VObj _ => true
  end.

(** ** Effects *)

Definition Res (A : Type) : Type := (JsError + A)%type.

(** A computation over a world [W] that records events of type [E]. *)
Definition Eff (E W A : Type) : Type := W -> Res A * W * list E.

Section Eff.
Context {E W : Type}.

Definition ret {A} (a : A) : Eff E W A := fun w => (inr a, w, []).

Definition throw {A} (e : JsError) : Eff E W A := fun w => (inl e, w, []).

Definition bind {A B} (m : Eff E W A) (k : A -> Eff E W B) : Eff E W B :=
  fun w =>
    match m w with
    | (inl e, w1, t1) => (inl e, w1, t1)
    | (inr a, w1, t1) =>
        match k a w1 with
        | (r, w2, t2) => (r, w2, t1 ++ t2)
        end
    end.

(** [promise.catch(handler)] / [catchError(handler)] *)
Definition catch {A} (m : Eff E W A) (h : JsError -> Eff E W A) : Eff E W A :=
  fun w =>
    match m w with
    | (inr a, w1, t1) => (inr a, w1, t1)
    | (inl e, w1, t1) =>
        match h e w1 with
        | (r, w2, t2) => (r, w2, t1 ++ t2)
        end
    end.

(** Settle a computation: its outcome becomes a value. *)
Definition attempt {A} (m : Eff E W A) : Eff E W (Res A) :=
  fun w => match m w with (r, w1, t1) => (inr r, w1, t1) end.

Definition fmap_eff {A B} (f : A -> B) (m : Eff E W A) : Eff E W B :=
  bind m (fun a => ret (f a)).

(** Record one event. *)
Definition tell (e : E) : Eff E W unit := fun w => (inr tt, w, [e]).

(** A call on a collaborator: the collaborator acts on the world, the call
    and its outcome are recorded by [ev]. *)
Definition call {A} (ev : Res A -> E) (op : W -> Res A * W) : Eff E W A :=
  fun w => match op w with (r, w1) => (r, w1, [ev r]) end.

Definition result {A} (x : Res A * W * list E) : Res A := fst (fst x).
Definition final {A} (x : Res A * W * list E) : W := snd (fst x).
Definition events {A} (x : Res A * W * list E) : list E := snd x.

End Eff.

Declare Scope eff_scope.
Delimit Scope eff_scope with eff.
Notation "x <- m ;; k" := (bind m (fun x => k))
  (at level 100, m at next level, right associativity) : eff_scope.
Notation "m ;;; k" := (bind m (fun _ => k))
  (at level 100, right associativity) : eff_scope.
Local Open Scope eff_scope.

(** ** What [src/types] declares *)

(** Modelled from the spec: [src/types] is not part of the sources. An issue
    has a key, a title, a type and a status; the code below only reads the
    key. *)
Inductive IssueType := FEATURE | BUG_TYPE | CHORE.
Inductive IssueStatus := OPEN | IN_PROGRESS | RESOLVED | RELEASED.

Record Issue := mkIssue {
  key : string;
  issue_title : string;
  issue_type : IssueType;
  issue_status : IssueStatus
}.

Record CreateIssue := mkCreateIssue {
  description : string;
  labels : list string;
  project : string;
  title : string;
  type : IssueType
}.

#[global] Instance IssueType_eq_dec : EqDecision IssueType.
Proof. solve_decision. Defined.
#[global] Instance IssueStatus_eq_dec : EqDecision IssueStatus.
Proof. solve_decision. Defined.
#[global] Instance Issue_eq_dec : EqDecision Issue.
Proof. solve_decision. Defined.
#[global] Instance CreateIssue_eq_dec : EqDecision CreateIssue.
Proof. solve_decision. Defined.

(** The glyphs of [src/io/messenger] that the sources use. *)
Inductive Emoji := BUG | TADA | BOOKMARK.

(** [src/issue-tracker/Tracker]: the interface the commands talk to. Every
    request is one round trip that settles once. *)
Record Tracker (W : Type) := mkTracker {
  getIssue : string -> W -> Res Issue * W;
  createIssueForCurrentUser : CreateIssue -> W -> Res Issue * W;
  setIssueStatus : IssueStatus -> string -> W -> Res Issue * W;
  isValidIssueName : string -> bool
}.
Arguments getIssue {W}.
Arguments createIssueForCurrentUser {W}.
Arguments setIssueStatus {W}.
Arguments isValidIssueName {W}.

(** [src/git/Git], as the commands see it: the operations they call on a
    [Git] object. *)
Record Git (W : Type) := mkGit {
  getBranchNameForIssue : Issue -> string;
  createBranchAndStashChanges : string -> W -> Res unit * W;
  getRootDir : W -> Res string * W;
  doesBranchExist : string -> W -> Res bool * W
}.
Arguments getBranchNameForIssue {W}.
Arguments createBranchAndStashChanges {W}.
Arguments getRootDir {W}.
Arguments doesBranchExist {W}.

(** ** The start command *)

Module Start.

(** The flags of [FotingoArguments] that the command reads. *)
Record FotingoArguments := mkArgs {
  noBranchIssue : bool;
  create : bool;
  arg_description : string;
  arg_labels : list string;
  arg_project : string;
  issueTitle : string;
  arg_type : IssueType;
  issueId : string
}.

(** [CreateIssue | GetIssue]: the second one is the object with an [id]. *)
Inductive IssueRequest :=
| ToCreate (c : CreateIssue)
| ToGet (id : string).

Record StartGit := mkStartGit { sg_createBranch : bool }.

Record StartData := mkStartData {
  sd_git : StartGit;
  sd_issue : IssueRequest
}.

Record IssueAndStartData := mkIssueAndStartData {
  commandData : StartData;
  issue : Issue
}.

(** What the pipeline does to its collaborators, with what came back. *)
Inductive Event :=
| Emit (msg : string) (emoji : Emoji)
| GetIssue (id : string) (r : Res Issue)
| CreateIssueForCurrentUser (c : CreateIssue) (r : Res Issue)
| SetIssueStatus (status : IssueStatus) (k : string) (r : Res Issue)
| GetBranchNameForIssue (i : Issue) (name : string)
| CreateBranchAndStashChanges (name : string) (r : Res unit).

Definition getCommandData (args : FotingoArguments) : StartData :=
  {| sd_git := {| sg_createBranch := negb (noBranchIssue args) |};
     sd_issue :=
       if create args
       then ToCreate {| description := arg_description args;
                        labels := arg_labels args;
                        project := arg_project args;
                        title := issueTitle args;
                        type := arg_type args |}
       else ToGet (issueId args) |}.

Section Pipeline.
Context {W : Type}.
Variable tracker : Tracker W.
Variable git : Git W.

Definition emit (msg : string) (emoji : Emoji) : Eff Event W unit :=
  tell (Emit msg emoji).

Definition getOrCreateIssue (data : StartData) : Eff Event W Issue :=
  match sd_issue data with
  | ToGet id =>
      emit ("Getting " +:+ id +:+ " from Jira") BUG ;;;
      call (GetIssue id) (getIssue tracker id)
  | ToCreate c =>
      emit "Creating issue in Jira" BUG ;;;
      call (CreateIssueForCurrentUser c) (createIssueForCurrentUser tracker c)
  end.

Definition setIssueInProgress (data : Issue) : Eff Event W Issue :=
  let id := key data in
  call (SetIssueStatus IN_PROGRESS id) (setIssueStatus tracker IN_PROGRESS id).

Definition shouldCreateBranch (data : IssueAndStartData) : bool :=
  bool_decide (sg_createBranch (sd_git (commandData data)) = true).

Definition createBranch (data : IssueAndStartData) : Eff Event W unit :=
  let name := getBranchNameForIssue git (issue data) in
  tell (GetBranchNameForIssue (issue data) name) ;;;
  emit ("Creating branch " +:+ name) TADA ;;;
  call (CreateBranchAndStashChanges name) (createBranchAndStashChanges git name).

Definition justReturnTheIssue (data : IssueAndStartData) : Eff Event W Issue :=
  ret (issue data).

(** The emitted value is [void] ([inl tt]) or an [Issue] ([inr _]). *)
Definition cmd (args : FotingoArguments) : Eff Event W (unit + Issue) :=
  let commandData_ := getCommandData args in
  i <- getOrCreateIssue commandData_ ;;
  emit ("Setting " +:+ key i +:+ " in progress") BOOKMARK ;;;
  i' <- setIssueInProgress i ;;
  let data := {| issue := i'; commandData := getCommandData args |} in
  if shouldCreateBranch data
  then fmap_eff inl (createBranch data)
  else fmap_eff inr (justReturnTheIssue data).

End Pipeline.


(** The first call of a run: the issue is fetched by id, or created. *)
Definition resolveCall (args : FotingoArguments) (r : Res Issue) : Event :=
  if create args
  then CreateIssueForCurrentUser
         {| description := arg_description args;
            labels := arg_labels args;
            project := arg_project args;
            title := issueTitle args;
            type := arg_type args |} r
  else GetIssue (issueId args) r.

(** The progress messages of a run. *)
Definition isEmit (e : Event) : bool :=
  match e with
  | Emit _ _ => true
  | _ => false
  end.

(** The same arguments with another issue id. *)
Definition withIssueId (id : string) (args : FotingoArguments)
  : FotingoArguments :=
  {| noBranchIssue := noBranchIssue args;
     create := create args;
     arg_description := arg_description args;
     arg_labels := arg_labels args;
     arg_project := arg_project args;
     issueTitle := issueTitle args;
     arg_type := arg_type args;
     issueId := id |}.

(** The same arguments with other data for a new issue. *)
Definition withNewIssue (c : CreateIssue) (args : FotingoArguments)
  : FotingoArguments :=
  {| noBranchIssue := noBranchIssue args;
     create := create args;
     arg_description := description c;
     arg_labels := labels c;
     arg_project := project c;
     issueTitle := title c;
     arg_type := type c;
     issueId := issueId args |}.

End Start.

(** ** The git adapter *)

Module GitAdapter.

(** What simple-git hands back to the adapter. *)
Record StatusResult := mkStatus { files : list string }.
Record LogLine := mkLogLine { hash : string }.
Record LogResult := mkLog { latest : LogLine }.
Record RemoteRefs := mkRefs { refs_fetch : string; refs_push : string }.
Record RemoteWithRefs := mkRemote { remote_name : string; refs : RemoteRefs }.

(** The simple-git operations that the tests of the adapter mock. *)
Record SimpleGit (W : Type) := mkSimpleGit {
  fetch : W -> Res unit * W;
  status : W -> Res StatusResult * W;
  stash : list string -> W -> Res unit * W;
  log : list string -> W -> Res LogResult * W;
  checkoutBranch : string -> string -> W -> Res unit * W;
  getRemotes : bool -> W -> Res (list RemoteWithRefs) * W
}.
Arguments fetch {W}.
Arguments status {W}.
Arguments stash {W}.
Arguments log {W}.
Arguments checkoutBranch {W}.
Arguments getRemotes {W}.

Record GitConfig := mkGitConfig {
  remote : string;
  baseBranch : string;
  branchTemplate : string
}.

(** The calls of the adapter on simple-git, with what came back. *)
Inductive Event :=
| Fetch (r : Res unit)
| Status (r : Res StatusResult)
| Stash (args : list string) (r : Res unit)
| Log (args : list string) (r : Res LogResult)
| CheckoutBranch (name startPoint : string) (r : Res unit)
| GetRemotes (verbose : bool) (r : Res (list RemoteWithRefs)).

(** The rest of [s] after the first occurrence of [p]. *)
Fixpoint dropThrough (p s : string) : option string :=
  if String.prefix p s
  then Some (String.substring (String.length p) (String.length s - String.length p) s)
  else match s with
       | EmptyString => None
       | String _ s' => dropThrough p s'
       end.

Definition includes (p s : string) : bool :=
  match dropThrough p s with
  | Some _ => true
  | None => false
  end.

(** Modelled from the spec: the error translation of [src/git/Git.ts] is not
    part of the sources. A branch with that name exists when git says so, in
    the words the test of the adapter gives:
    [A branch named <name> already exists]. *)
Definition saysBranchExists (msg : string) : bool :=
  match dropThrough "A branch named " msg with
  | Some rest => includes " already exists" rest
  | None => false
  end.

(** Modelled from the spec: the error translation of [src/git/Git.ts] is not
    part of the sources. The adapter is invoked outside a repository when git
    says that this is not a git repository. *)
Definition saysNotARepo (msg : string) : bool :=
  includes "not a git repository" msg.

(** Modelled from the spec: [src/git/Git.ts] is not part of the sources. The
    adapter translates the errors of the underlying tool into its typed
    taxonomy: [BRANCH_ALREADY_EXISTS] if a branch with that name exists,
    [NOT_A_GIT_REPO] outside a repository, and the generic
    [GIT_COMMAND_FAILED] around the text of the tool otherwise. *)
Definition mapError (e : JsError) : JsError :=
  if saysBranchExists (message e)
  then mkError (GitCode BRANCH_ALREADY_EXISTS) (message e)
  else if saysNotARepo (message e)
  then mkError (GitCode NOT_A_GIT_REPO) (message e)
  else mkError (GitCode GIT_COMMAND_FAILED) (message e).

(** Modelled from the spec: [src/git/Git.ts] is not part of the sources. The
    stash is made under a fixed auto-generated message; the arguments are
    those the test of the adapter expects. *)
Definition stashArguments : list string :=
  ["save"; "--include-untracked"; "Auto generated by fotingo"].

(** Modelled from the spec: [src/git/Git.ts] is not part of the sources. The
    remote base branch is [remotes/<remote>/<baseBranch>], as the test of
    the adapter builds it. *)
Definition remoteBaseBranch (config : GitConfig) : string :=
  "remotes/" +:+ remote config +:+ "/" +:+ baseBranch config.

Section Adapter.
Context {W : Type}.
Variable git : SimpleGit W.
Variable config : GitConfig.

(** Modelled from the spec: [Git.createBranchAndStashChanges] is not part of
    the sources (only its test is). It fetches from the remote, stashes any
    uncommitted changes (only if the working tree is dirty) under a fixed
    auto-generated stash message, then checks out a new branch named [name]
    from the tip of the remote base branch; the errors of the tool are
    translated by [mapError]. The spec does not say at which step a branch
    that is already there is found: here it is learnt from the checkout
    that git rejects, which is how the test of the adapter produces the
    failure. *)
Definition createBranchAndStashChanges (name : string) : Eff Event W unit :=
  catch
    (call Fetch (fetch git) ;;;
     st <- call Status (status git) ;;
     match files st with
     | [] => ret tt
     | _ :: _ => call (Stash stashArguments) (stash git stashArguments)
     end ;;;
     lastCommit <- call (Log ["-n1"; remoteBaseBranch config])
                        (log git ["-n1"; remoteBaseBranch config]) ;;
     call (CheckoutBranch name (hash (latest lastCommit)))
          (checkoutBranch git name (hash (latest lastCommit))))
    (fun e => throw (mapError e)).

(** Modelled from the spec: [Git.getRemote] is not part of the sources (only
    its test is). It returns the remote of that name; if absent, falls back
    to the first configured remote; fails if no remotes exist. The remotes
    are read with [getRemotes(true)], as the test expects; the parsing of the
    remote's URL is left out. *)
Definition getRemote (name : string) : Eff Event W RemoteWithRefs :=
  remotes <- call (GetRemotes true) (getRemotes git true) ;;
  match find (fun r => String.eqb (remote_name r) name) remotes with
  | Some r => ret r
  | None =>
      match remotes with
      | r :: _ => ret r
      | [] => throw (mkError (GitCode NO_REMOTE) "The repository does not have a remote")
      end
  end.

End Adapter.




End GitAdapter.

(** ** The command base class *)

Module FotingoCommand.

(** Modelled from the spec: [BranchInfo], [Commit] and [LocalChanges] are
    declared outside the sources. A branch info is a branch name, the commits
    since the base and the issue references found in the commit messages;
    the code reads the [issue] property of each reference. *)
Record Commit := mkCommit {
  commit_hash : string;
  commit_author : string;
  commit_date : string;
  commit_message : string
}.

Record BranchIssue := mkBranchIssue { bi_issue : string }.

Record BranchInfo := mkBranchInfo {
  bi_name : string;
  bi_commits : list Commit;
  bi_issues : list BranchIssue
}.

Record LocalChanges := mkLocalChanges {
  branchInfo : BranchInfo;
  issues : list Issue
}.

(** The second component of the pair that [getLocalChangesInformation]
    accepts: [{ issues?: string[]; tracker: { enabled: boolean } }]. *)
Record ReleaseData := mkReleaseData {
  rd_issues : option (list string);
  rd_tracker_enabled : bool
}.

(** [[BranchInfo, {...}] | BranchInfo] *)
Inductive LocalChangesInput :=
| WithData (b : BranchInfo) (d : ReleaseData)
| OnlyBranchInfo (b : BranchInfo).

(** A registered validation, [[() => Observable<boolean>, string]]: the
    check, which settles with the value it emits, and its message. *)
Definition Validation (W : Type) : Type := ((W -> Res JsVal * W) * string)%type.

(** What a command does to its collaborators, with what came back. [T] is
    the type of what [runCmd] emits. *)
Inductive Event (T : Type) :=
| Emit (msg : string) (emoji : Emoji)
| GetIssue (k : string) (r : Res Issue)
| Validate (msg : string) (r : Res JsVal)
| RunCmd (r : Res T)
| ProcessExit (status : Z).
Arguments Emit {T}.
Arguments GetIssue {T}.
Arguments Validate {T}.
Arguments RunCmd {T}.
Arguments ProcessExit {T}.

(** [ifElse(equals(true), always(undefined), () => message)]: [None] is
    [undefined]. *)
Definition returnIfFalse (message : string) (v : JsVal) : option string :=
  if bool_decide (v = VBool true) then None else Some message.

(** [reduce((accumulator, value) => [...accumulator, value], [])] over the
    merged lookups, in the order in which they settle; each lookup is piped
    through the [catchError] that turns a 404 into [EMPTY] and rethrows
    anything else, and the first error that comes through ends the stream. *)
Fixpoint reduceIssues (accumulator : list Issue) (settled : list (Res Issue))
  : Res (list Issue) :=
  match settled with
  | [] => inr accumulator
  | inr value :: rest => reduceIssues (accumulator ++ [value]) rest
  | inl error :: rest =>
      if bool_decide (code error = NumCode 404)
      then reduceIssues accumulator rest
      else inl error
  end.

(** [switchMap(message => message === undefined ? of(undefined) :
    throwError(new Error(message)))] followed by [last()], over the merged
    messages in the order in which they arrive. [seen] tells whether a value
    has come through; [last()] on a stream that completes without one fails
    with rxjs's [EmptyError]. *)
Fixpoint switchToLast (seen : bool) (arrived : list (Res (option string)))
  : Res unit :=
  match arrived with
  | [] => if seen then inr tt else inl (Error "no elements in sequence")
  | inl error :: _ => inl error
  | inr None :: rest => switchToLast true rest
  | inr (Some message) :: _ => inl (Error message)
  end.

Section Command.
Context {W T : Type}.
Variable tracker : Tracker W.
Variable git : Git W.
Variable baseBranch : string.

(** The order in which requests that run at the same time settle: [merge]
    hands their results on as they arrive. *)
Variable settle : forall A : Type, list A -> list A.

Definition emit (msg : string) (emoji : Emoji) : Eff (Event T) W unit :=
  tell (Emit msg emoji).

(** [list.map(f)] for an [f] that starts a request: all the requests are
    started, in the order of the list, and each one settles on its own, with
    the outcome that the collaborator gave it when it was started; the order
    in which the outcomes are handed on is that of [settle]. *)
Fixpoint startAll {A B} (f : A -> Eff (Event T) W B) (l : list A)
  : Eff (Event T) W (list (Res B)) :=
  match l with
  | [] => ret []
  | a :: rest =>
      r <- attempt (f a) ;;
      rs <- startAll f rest ;;
      ret (r :: rs)
  end.

Definition isGitRepo (w : W) : Res JsVal * W :=
  match getRootDir git w with
  | (inr _, w1) => (inr (VBool true), w1)
  | (inl error, w1) =>
      (inr match code error with
           | NoCode => VUndefined
           | NumCode n => if (n =? 0)%Z then VNum 0 else VBool true
           | GitCode t => VBool (bool_decide (t <> NOT_A_GIT_REPO))
           end, w1)
  end.

Definition defaultBranchExist (w : W) : Res JsVal * W :=
  match doesBranchExist git baseBranch w with
  | (inr b, w1) => (inr (VBool b), w1)
  | (inl error, w1) => (inl error, w1)
  end.

Definition getValidations : list (Validation W) :=
  [ (isGitRepo, "Fotingo needs to run inside a git repository");
    (defaultBranchExist,
     "Couldn't find any branch that matched " +:+ baseBranch
       +:+ " to use as base branch") ].

(** The keys that [getLocalChangesInformation] resolves, [allIssues] in the
    source, and whether the tracker is enabled. *)
Definition inputBranchInfo (data : LocalChangesInput) : BranchInfo :=
  match data with
  | WithData b _ => b
  | OnlyBranchInfo b => b
  end.

Definition inputIssues (data : LocalChangesInput) : list string :=
  match data with
  | WithData _ d => default [] (rd_issues d)
  | OnlyBranchInfo _ => []
  end.

Definition trackerEnabled (data : LocalChangesInput) : bool :=
  match data with
  | WithData _ d => rd_tracker_enabled d
  | OnlyBranchInfo _ => true
  end.

Definition allIssues (data : LocalChangesInput) : list string :=
  map bi_issue (bi_issues (inputBranchInfo data)) ++ inputIssues data.

(** One lookup, [this.tracker.getIssue(issue)]. *)
Definition lookupIssue (k : string) : Eff (Event T) W Issue :=
  call (GetIssue k) (getIssue tracker k).

Definition getLocalChangesInformation (data : LocalChangesInput)
  : Eff (Event T) W LocalChanges :=
  let branchInfo_ := inputBranchInfo data in
  if negb (trackerEnabled data)
  then ret {| branchInfo := branchInfo_; issues := [] |}
  else
    let allIssues_ := allIssues data in
    (if (0 <? length allIssues_)%nat
     then emit ("Getting information for " +:+ String.concat ", " allIssues_) BUG
     else ret tt) ;;;
    lookups <- startAll lookupIssue
                        (List.filter (isValidIssueName tracker) allIssues_) ;;
    match reduceIssues [] (settle _ lookups) with
    | inl error => throw error
    | inr collected => ret {| branchInfo := branchInfo_; issues := collected |}
    end.

(** One check, [validation().pipe(map(returnIfFalse(message)))]. *)
Definition check (v : Validation W) : Eff (Event T) W (option string) :=
  let '(validation, message) := v in
  b <- call (Validate message) validation ;;
  ret (returnIfFalse message b).

Definition validate (validations : list (Validation W)) : Eff (Event T) W unit :=
  checks <- startAll check validations ;;
  match switchToLast false (settle _ (checks ++ [inr None])) with
  | inl error => throw error
  | inr _ => ret tt
  end.

(** The pipeline that [run] hands to the user interface:
    [validate(...).pipe(switchMap(() => runCmd(...)))]. *)
Definition pipeline (validations : list (Validation W)) (runCmd : W -> Res T * W)
  : Eff (Event T) W T :=
  validate validations ;;;
  call RunCmd runCmd.

(** [run]: the process exits with status 1 if the pipeline fails. *)
Definition run (validations : list (Validation W)) (runCmd : W -> Res T * W)
  : Eff (Event T) W unit :=
  catch (pipeline validations runCmd ;;; ret tt)
        (fun _ => tell (ProcessExit 1)).

End Command.

(** The issue of a lookup that succeeded. *)
Definition issueOf (r : Res Issue) : option Issue :=
  match r with inr i => Some i | inl _ => None end.

(** The two operations of [fs] that the constructor calls; [existsSync]
    only reads. *)
Record Fs (W : Type) := mkFs {
  existsSync : string -> W -> bool;
  mkdirSync : string -> W -> Res unit * W
}.
Arguments existsSync {W}.
Arguments mkdirSync {W}.

Inductive FsEvent :=
| ExistsSync (path : string) (found : bool)
| MkdirSync (path : string) (r : Res unit).

Definition isMkdirSync (e : FsEvent) : bool :=
  match e with MkdirSync _ _ => true | _ => false end.

(** [createConfigFolder], for the home directory [this.config.home]. *)
Definition createConfigFolder {W} (fs : Fs W) (home : string)
  : Eff FsEvent W unit :=
  let path := home +:+ "/.fotingo_config" in
  found <- (fun w => (inr (existsSync fs path w), w,
                      [ExistsSync path (existsSync fs path w)])) ;;
  if negb found
  then call (MkdirSync path) (mkdirSync fs path)
  else ret tt.

(** What a check that settled with [r] hands to [merge]. *)
Definition toMessage (message : string) (r : Res JsVal) : Res (option string) :=
  match r with
  | inl error => inl error
  | inr v => inr (returnIfFalse message v)
  end.


(** The issues that the lookups returned, in the order of the calls. *)
Definition found {T} (e : Event T) : option Issue :=
  match e with GetIssue _ (inr i) => Some i | _ => None end.


Definition isRunCmd {T} (e : Event T) : bool :=
  match e with RunCmd _ => true | _ => false end.

(** The progress messages of a run. *)
Definition isEmit {T} (e : Event T) : bool :=
  match e with Emit _ _ => true | _ => false end.

(** What the lookups returned, in the order of the calls. *)
Definition outcome {T} (e : Event T) : option (Res Issue) :=
  match e with GetIssue _ r => Some r | _ => None end.

End FotingoCommand.

(** ** The cacheable decorator *)

Module Cacheable.

(** The two operations of the Keyv store that the decorator calls. [get]
    resolves to [undefined] for a key that the store does not hold. *)
Record Keyv (W : Type) := mkKeyv {
  get : string -> W -> Res JsVal * W;
  set : string -> JsVal -> option Z -> W -> Res unit * W
}.
Arguments get {W}.
Arguments set {W}.

(** What the wrapper does to the store and to the decorated method, with
    what came back. *)
Inductive Event :=
| KeyvGet (k : string) (r : Res JsVal)
| Method (functionArguments : list JsVal) (r : Res JsVal)
| KeyvSet (k : string) (v : JsVal) (ttl : option Z) (r : Res unit).

Definition isMethod (e : Event) : bool :=
  match e with Method _ _ => true | _ => false end.

Section Decorator.
Context {W : Type}.
Variable keyv : Keyv W.

(** [process.env.FOTINGO_DISABLE_CACHE !== undefined] *)
Variable isCacheDisabled : bool.

(** [JSON.stringify] *)
Variable stringify : JsVal -> string.

(** The options of the decorator. *)
Variable getPrefix : option (list JsVal -> string).
Variable minutes : option Z.

(** [target.constructor.name], [String(propertyKey)] and [descriptor.value]. *)
Variable className : string.
Variable propertyKey : string.
Variable method : list JsVal -> W -> Res JsVal * W.

Definition cacheKey (functionArguments : list JsVal) : string :=
  let prefix :=
    match getPrefix with
    | Some f => f functionArguments
    | None => ""
    end in
  let keyArguments :=
    if (0 <? length functionArguments)%nat
    then "_" +:+ String.concat "_" (map stringify functionArguments)
    else "" in
  prefix +:+ className +:+ "_" +:+ propertyKey +:+ keyArguments.

(** [minutes ? minutes * 60 * 1000 : undefined] *)
Definition timeToLive : option Z :=
  match minutes with
  | Some m => if (m =? 0)%Z then None else Some (m * 60 * 1000)%Z
  | None => None
  end.

Definition cachedFunction (functionArguments : list JsVal) : Eff Event W JsVal :=
  if isCacheDisabled
  then call (Method functionArguments) (method functionArguments)
  else
    let k := cacheKey functionArguments in
    cachedValue <- call (KeyvGet k) (get keyv k) ;;
    if truthy cachedValue
    then ret cachedValue
    else
      r <- call (Method functionArguments) (method functionArguments) ;;
      call (KeyvSet k r timeToLive) (set keyv k r timeToLive) ;;;
      ret r.

End Decorator.

Definition isKeyvSet (e : Event) : bool :=
  match e with KeyvSet _ _ _ _ => true | _ => false end.

(** One day in minutes *)
Definition ONE_DAY : Z := 60 * 24.

End Cacheable.

(** ** Concrete collaborators

    Small stand-ins for the tracker and for simple-git, in the way the mocks
    of the tests stand in for them, on which the definitions above run. *)

Module Fixtures.
Import GitAdapter.

(** A repository: local branches, the changed files of the working tree, the
    stashes, the remote-tracking references the repository knows and the
    references the remote holds. *)
Record Repo := mkRepo {
  repo_branches : list string;
  repo_current : string;
  repo_changes : list string;
  repo_stashes : list (string * list string);
  repo_tracking : gmap string string;
  repo_upstream : gmap string string;
  repo_remotes : list RemoteWithRefs
}.

Definition memFetch (w : Repo) : Res unit * Repo :=
  (inr tt,
   {| repo_branches := repo_branches w;
      repo_current := repo_current w;
      repo_changes := repo_changes w;
      repo_stashes := repo_stashes w;
      repo_tracking := repo_upstream w ∪ repo_tracking w;
      repo_upstream := repo_upstream w;
      repo_remotes := repo_remotes w |}).

Definition memStatus (w : Repo) : Res StatusResult * Repo :=
  (inr {| files := repo_changes w |}, w).

Definition memStash (args : list string) (w : Repo) : Res unit * Repo :=
  match args with
  | ["save"; "--include-untracked"; msg] =>
      (inr tt,
       {| repo_branches := repo_branches w;
          repo_current := repo_current w;
          repo_changes := [];
          repo_stashes := (msg, repo_changes w) :: repo_stashes w;
          repo_tracking := repo_tracking w;
          repo_upstream := repo_upstream w;
          repo_remotes := repo_remotes w |})
  | _ => (inl (Error "usage: git stash"), w)
  end.

Definition memLog (args : list string) (w : Repo) : Res LogResult * Repo :=
  match args with
  | ["-n1"; ref] =>
      match repo_tracking w !! ref with
      | Some h => (inr {| latest := {| hash := h |} |}, w)
      | None => (inl (Error ("unknown revision " +:+ ref)), w)
      end
  | _ => (inl (Error "usage: git log"), w)
  end.

Definition memCheckoutBranch (name startPoint : string) (w : Repo)
  : Res unit * Repo :=
  if bool_decide (name ∈ repo_branches w)
  then (inl (Error ("A branch named " +:+ name +:+ " already exists")), w)
  else (inr tt,
        {| repo_branches := name :: repo_branches w;
           repo_current := name;
           repo_changes := repo_changes w;
           repo_stashes := repo_stashes w;
           repo_tracking := repo_tracking w;
           repo_upstream := repo_upstream w;
           repo_remotes := repo_remotes w |}).

Definition memGetRemotes (verbose : bool) (w : Repo)
  : Res (list RemoteWithRefs) * Repo :=
  (inr (repo_remotes w), w).

Definition memGit : SimpleGit Repo :=
  {| fetch := memFetch;
     status := memStatus;
     stash := memStash;
     log := memLog;
     checkoutBranch := memCheckoutBranch;
     getRemotes := memGetRemotes |}.

Definition gitConfig : GitConfig :=
  {| remote := "origin"; baseBranch := "master"; branchTemplate := "" |}.

Definition origin : RemoteWithRefs :=
  {| remote_name := "origin";
     refs := {| refs_fetch := "git@github.com:tagoro9/fotingo-rewrite.git";
                refs_push := "git@github.com:tagoro9/fotingo-rewrite.git" |} |}.

Definition upstream : RemoteWithRefs :=
  {| remote_name := "upstream";
     refs := {| refs_fetch := "git@github.com:fotingo/fotingo.git";
                refs_push := "git@github.com:fotingo/fotingo.git" |} |}.

(** A clean repository on [master], one commit behind its remote. *)
Definition cleanRepo : Repo :=
  {| repo_branches := ["master"];
     repo_current := "master";
     repo_changes := [];
     repo_stashes := [];
     repo_tracking := {[ "remotes/origin/master" := "1f0e3aa" ]};
     repo_upstream := {[ "remotes/origin/master" := "547433c" ]};
     repo_remotes := [origin; upstream] |}.

(** The same repository with an uncommitted file. *)
Definition dirtyRepo : Repo :=
  {| repo_branches := ["master"];
     repo_current := "master";
     repo_changes := ["some file.txt"];
     repo_stashes := [];
     repo_tracking := {[ "remotes/origin/master" := "1f0e3aa" ]};
     repo_upstream := {[ "remotes/origin/master" := "547433c" ]};
     repo_remotes := [origin; upstream] |}.

(** A dirty repository in which the branch [FOTINGO-123] is already there. *)
Definition dirtyRepoWithBranch : Repo :=
  {| repo_branches := ["master"; "FOTINGO-123"];
     repo_current := "master";
     repo_changes := ["some file.txt"];
     repo_stashes := [];
     repo_tracking := {[ "remotes/origin/master" := "1f0e3aa" ]};
     repo_upstream := {[ "remotes/origin/master" := "547433c" ]};
     repo_remotes := [origin] |}.

(** A tracker that holds its issues in a map, and answers 404 for a key it
    does not hold. *)
Record Board := mkBoard {
  board_issues : gmap string Issue;
  board_repo : Repo
}.

Definition notFound : JsError := mkError (NumCode 404) "Issue Does Not Exist".

Definition unavailable : JsError := mkError (NumCode 503) "Service Unavailable".

Definition boardGetIssue (id : string) (w : Board) : Res Issue * Board :=
  if String.eqb id "FOTINGO-503" then (inl unavailable, w)
  else match board_issues w !! id with
       | Some i => (inr i, w)
       | None => (inl notFound, w)
       end.

Definition boardCreateIssue (c : CreateIssue) (w : Board) : Res Issue * Board :=
  let i := {| key := project c +:+ "-1";
              issue_title := title c;
              issue_type := type c;
              issue_status := OPEN |} in
  (inr i, {| board_issues := <[key i := i]> (board_issues w);
             board_repo := board_repo w |}).

Definition boardSetIssueStatus (status : IssueStatus) (k : string) (w : Board)
  : Res Issue * Board :=
  match board_issues w !! k with
  | Some i =>
      let i' := {| key := key i;
                   issue_title := issue_title i;
                   issue_type := issue_type i;
                   issue_status := status |} in
      (inr i', {| board_issues := <[k := i']> (board_issues w);
                  board_repo := board_repo w |})
  | None => (inl notFound, w)
  end.

Definition boardTracker : Tracker Board :=
  {| getIssue := boardGetIssue;
     createIssueForCurrentUser := boardCreateIssue;
     setIssueStatus := boardSetIssueStatus;
     isValidIssueName := String.prefix "FOTINGO-" |}.

(** The git adapter over the in-memory repository, as the commands see it. *)
Definition boardGit : Git Board :=
  mkGit Board
    key
    (fun name w =>
       match GitAdapter.createBranchAndStashChanges memGit gitConfig name
               (board_repo w) with
       | (r, repo', _) =>
           (r, {| board_issues := board_issues w; board_repo := repo' |})
       end)
    (fun w => (inr "/home/fotingo", w))
    (fun name w =>
       (inr (bool_decide (name ∈ repo_branches (board_repo w))), w)).

Definition issue123 : Issue :=
  {| key := "FOTINGO-123";
     issue_title := "Fix this";
     issue_type := BUG_TYPE;
     issue_status := OPEN |}.

Definition issue12 : Issue :=
  {| key := "FOTINGO-12";
     issue_title := "Implement that";
     issue_type := FEATURE;
     issue_status := OPEN |}.




Definition board : Board :=
  {| board_issues := {[ "FOTINGO-123" := issue123; "FOTINGO-12" := issue12 ]};
     board_repo := dirtyRepo |}.

Definition startArguments : Start.FotingoArguments :=
  {| Start.noBranchIssue := false;
     Start.create := false;
     Start.arg_description := "";
     Start.arg_labels := [];
     Start.arg_project := "";
     Start.issueTitle := "";
     Start.arg_type := BUG_TYPE;
     Start.issueId := "FOTINGO-123" |}.

(** The commits of a branch refer to an issue that is there, to one that is
    not, and to a key that is not an issue key. *)
Definition branchInfo123 : FotingoCommand.BranchInfo :=
  {| FotingoCommand.bi_name := "FOTINGO-123";
     FotingoCommand.bi_commits := [];
     FotingoCommand.bi_issues :=
       [ {| FotingoCommand.bi_issue := "FOTINGO-123" |};
         {| FotingoCommand.bi_issue := "FOTINGO-1" |};
         {| FotingoCommand.bi_issue := "123" |} ] |}.

Definition releaseData : FotingoCommand.ReleaseData :=
  {| FotingoCommand.rd_issues := Some ["FOTINGO-12"];
     FotingoCommand.rd_tracker_enabled := true |}.

(** The same, with a key whose lookup fails with another code than 404. *)
Definition releaseDataUnavailable : FotingoCommand.ReleaseData :=
  {| FotingoCommand.rd_issues := Some ["FOTINGO-503"; "FOTINGO-12"];
     FotingoCommand.rd_tracker_enabled := true |}.

(** Requests that settle in the reverse of the order in which they were
    started. *)
Definition lastFirst (A : Type) (l : list A) : list A := rev l.

(** A [runCmd] that emits a number. *)
Definition runCmd42 (w : Board) : Res Z * Board := (inr 42%Z, w).

(** A store that holds its values in a map, with the time at which each one
    expires; the decorated method counts its calls and returns 0. *)
Record Cache := mkCache {
  cache_store : gmap string (JsVal * option Z);
  cache_now : Z;
  cache_calls : nat
}.

Definition cacheGet (k : string) (w : Cache) : Res JsVal * Cache :=
  match cache_store w !! k with
  | Some (v, Some expires) =>
      if (expires <? cache_now w)%Z
      then (inr VUndefined,
            {| cache_store := delete k (cache_store w);
               cache_now := cache_now w;
               cache_calls := cache_calls w |})
      else (inr v, w)
  | Some (v, None) => (inr v, w)
  | None => (inr VUndefined, w)
  end.

Definition cacheSet (k : string) (v : JsVal) (ttl : option Z) (w : Cache)
  : Res unit * Cache :=
  (inr tt,
   {| cache_store :=
        <[k := (v, (fun t => (cache_now w + t)%Z) <$> ttl)]> (cache_store w);
      cache_now := cache_now w;
      cache_calls := cache_calls w |}).

Definition memKeyv : Cacheable.Keyv Cache :=
  {| Cacheable.get := cacheGet; Cacheable.set := cacheSet |}.

Definition countOpenIssues (functionArguments : list JsVal) (w : Cache)
  : Res JsVal * Cache :=
  (inr (VNum 0),
   {| cache_store := cache_store w;
      cache_now := cache_now w;
      cache_calls := S (cache_calls w) |}).

(** [JSON.stringify] on the values of [JsVal]: a string is quoted and its
    quotes, backslashes and control characters are escaped; [undefined] has
    no rendering and joins as the empty string; [NaN] gives [null]. Numbers
    are the integers that print in plain digits, and an object, which
    [JsVal] keeps opaque, is taken to be empty. *)
Definition quote : string := String (Ascii.ascii_of_nat 34) EmptyString.

Definition hexDigit (n : nat) : string :=
  String.substring n 1 "0123456789abcdef".

Fixpoint escape (s : string) : string :=
  match s with
  | EmptyString => EmptyString
  | String c rest =>
      let n := Ascii.nat_of_ascii c in
      (if (n =? 34)%nat then "\" +:+ quote
       else if (n =? 92)%nat then "\\"
       else if (n =? 8)%nat then "\b"
       else if (n =? 9)%nat then "\t"
       else if (n =? 10)%nat then "\n"
       else if (n =? 12)%nat then "\f"
       else if (n =? 13)%nat then "\r"
       else if (n <? 32)%nat
       then "\u00" +:+ hexDigit (n / 16) +:+ hexDigit (n mod 16)
       else String c EmptyString)
      +:+ escape rest
  end.

Definition showValue (v : JsVal) : string :=
  match v with
  | VUndefined => EmptyString
  | VNull => "null"
  | VBool true => "true"
  | VBool false => "false"
  | VNum n => pretty n
  | VNaN => "null"
  | VStr s => quote +:+ escape s +:+ quote
  | VObj _ => "{}"
  end.

(** A cache in which the count of the open issues of board 7, which is 0,
    is stored. *)
Definition cacheWithZero : Cache :=
  {| cache_store := {[ "Jira_countOpenIssues_7" := (VNum 0, None) ]};
     cache_now := 1000;
     cache_calls := 0 |}.

(** The runs that the properties below are tried on. *)
Definition startRun :=
  Start.cmd boardTracker boardGit startArguments board.




Definition cleanRun :=
  createBranchAndStashChanges memGit gitConfig "FOTINGO-123" cleanRepo.

Definition dirtyRun :=
  createBranchAndStashChanges memGit gitConfig "FOTINGO-123" dirtyRepo.

Definition existingBranchRun :=
  createBranchAndStashChanges memGit gitConfig "FOTINGO-123" dirtyRepoWithBranch.

Definition fallbackRun := getRemote memGit "some_remote" cleanRepo.

Definition localChangesRun :=
  FotingoCommand.getLocalChangesInformation (T:=Z) boardTracker lastFirst
    (FotingoCommand.WithData branchInfo123 releaseData) board.

Definition unavailableRun :=
  FotingoCommand.getLocalChangesInformation (T:=Z) boardTracker lastFirst
    (FotingoCommand.WithData branchInfo123 releaseDataUnavailable) board.

Definition noBaseBranchRun :=
  FotingoCommand.pipeline lastFirst
    (FotingoCommand.getValidations boardGit "main") runCmd42 board.

Definition cachedZeroRun :=
  Cacheable.cachedFunction memKeyv false showValue None
    (Some Cacheable.ONE_DAY) "Jira" "countOpenIssues" countOpenIssues
    [VNum 7] cacheWithZero.

End Fixtures.

Module MoreFixtures.
Import Fixtures.


Definition gitCrashed : JsError :=
  mkError (GitCode GIT_COMMAND_FAILED) "fatal: unable to read config file".


Definition crashingGit : Git Board :=
  mkGit Board key
    (fun name w => (inl gitCrashed, w))
    (fun w => (inl gitCrashed, w))
    (fun name w =>
       (inr (bool_decide (name ∈ repo_branches (board_repo w))), w)).




Definition masterRun :=
  FotingoCommand.pipeline lastFirst
    (FotingoCommand.getValidations boardGit "master") runCmd42 board.


Definition crashingRun :=
  FotingoCommand.pipeline lastFirst
    (FotingoCommand.getValidations crashingGit "master") runCmd42 board.

(** A decorated method that returns 3, and caches for the wrapper. *)
Definition countThree (functionArguments : list JsVal) (w : Cache)
  : Res JsVal * Cache :=
  (inr (VNum 3),
   {| cache_store := cache_store w;
      cache_now := cache_now w;
      cache_calls := S (cache_calls w) |}).

Definition emptyCache : Cache :=
  {| cache_store := ∅; cache_now := 1000; cache_calls := 0 |}.

Definition cantOpen : JsError := Error "SQLITE_CANTOPEN: unable to open database file".

(** A store whose database cannot be opened. *)
Definition brokenKeyv : Cacheable.Keyv Cache :=
  {| Cacheable.get := fun k w => (inl cantOpen, w);
     Cacheable.set := fun k v ttl w => (inl cantOpen, w) |}.

Definition cachedThree :=
  Cacheable.cachedFunction memKeyv false showValue None
    (Some Cacheable.ONE_DAY) "Jira" "countOpenIssues" countThree
    [VNum 7].


Definition brokenRun :=
  Cacheable.cachedFunction brokenKeyv false showValue None
    (Some Cacheable.ONE_DAY) "Jira" "countOpenIssues" countThree
    [VNum 7] emptyCache.

(** A file system as the set of its directories. *)
Definition memFs : FotingoCommand.Fs (gset string) :=
  {| FotingoCommand.existsSync := fun path w => bool_decide (path ∈ w);
     FotingoCommand.mkdirSync := fun path w =>
       if bool_decide (path ∈ w)
       then (inl (Error ("EEXIST: file already exists, mkdir " +:+ path)), w)
       else (inr tt, {[ path ]} ∪ w) |}.

End MoreFixtures.

(** * Properties *)

(** ** The effect monad *)

Tactic Notation "run_eff" :=
  cbv beta iota delta
    [bind catch attempt fmap_eff tell call ret throw result final events];
  cbn [fst snd app].
Tactic Notation "run_eff" "in" hyp(H) :=
  cbv beta iota delta
    [bind catch attempt fmap_eff tell call ret throw result final events] in H;
  cbn [fst snd app] in H.

Lemma bind_ret_l {E W A B} (a : A) (k : A -> Eff E W B) (w : W) :
  bind (ret a) k w = k a w.
Proof. run_eff. by destruct (k a w) as [[r w'] t]. Qed.

Lemma bind_ret_r {E W A} (m : Eff E W A) (w : W) :
  bind m ret w = m w.
Proof.
  run_eff. destruct (m w) as [[[e|a] w'] t]; [done |].
  by rewrite app_nil_r.
Qed.

Lemma bind_assoc {E W A B C} (m : Eff E W A)
    (f : A -> Eff E W B) (g : B -> Eff E W C) (w : W) :
  bind (bind m f) g w = bind m (fun a => bind (f a) g) w.
Proof.
  run_eff. destruct (m w) as [[[e|a] w1] t1]; [done |].
  destruct (f a w1) as [[[e|b] w2] t2]; [done |].
  destruct (g b w2) as [[r w3] t3]. by rewrite app_assoc.
Qed.

Lemma bind_throw {E W A B} (e : JsError) (k : A -> Eff E W B) (w : W) :
  bind (throw e) k w = (inl e, w, []).
Proof. reflexivity. Qed.

(** ** The start command *)

Section StartFacts.
Import Start.
Context {W : Type}.
Variable tracker : Tracker W.
Variable git : Git W.

Lemma getCommandData_createBranch (args : FotingoArguments) (i : Issue) :
  shouldCreateBranch {| issue := i; commandData := getCommandData args |}
  = negb (noBranchIssue args).
Proof.
  unfold shouldCreateBranch; cbn.
  destruct (noBranchIssue args); reflexivity.
Qed.

(** The first step of [cmd] makes exactly the call [resolveCall]. *)
Lemma getOrCreateIssue_calls (args : FotingoArguments) (w : W) :
  exists r1 w1 m,
    getOrCreateIssue tracker (getCommandData args) w
    = (r1, w1, [Emit m BUG; resolveCall args r1]).
Proof.
  unfold getOrCreateIssue, getCommandData, resolveCall, emit; cbn.
  destruct (create args); run_eff.
  - destruct (createIssueForCurrentUser tracker _ w) as [r1 w1]; eauto.
  - destruct (getIssue tracker _ w) as [r1 w1]; eauto.
Qed.



End StartFacts.

(** ** The git adapter *)

Section GitAdapterFacts.
Import GitAdapter.
Context {W : Type}.
Variable git : SimpleGit W.
Variable config : GitConfig.


Ltac in_cases :=
  repeat match goal with
         | H : In _ (_ :: _) |- _ => destruct H as [H|H]
         | H : In _ [] |- _ => destruct H
         end;
  simplify_eq.



(** C6: [getRemote] reads the remotes once; it returns a remote of the
    requested name if there is one, the first remote if there is none of
    that name, and fails if there is no remote at all. *)
Theorem getRemote_named_or_first
    (name : string) (w : W) (remotes : list RemoteWithRefs) :
  let run := getRemote git name w in
  In (GetRemotes true (inr remotes)) (events run) ->
  ((exists r, In r remotes /\ remote_name r = name) ->
     exists r, result run = inr r /\ In r remotes /\ remote_name r = name)
  /\ ((forall r, In r remotes -> remote_name r <> name) ->
      forall r rest, remotes = r :: rest -> result run = inr r)
  /\ (remotes = [] -> exists e, result run = inl e).
Proof.
  intros run Hin.
  assert (E : run = getRemote git name w) by reflexivity; clearbody run.
  unfold getRemote in E; run_eff in E.
  destruct (getRemotes git true w) as [[e|rs] w1].
  { subst run; cbn [events snd] in Hin; in_cases. }
  assert (rs = remotes) as ->.
  { destruct (find _ rs) as [r|]; [| destruct rs]; subst run;
      cbn [events snd app] in Hin; in_cases; reflexivity. }
  clear Hin.
  destruct (find _ remotes) as [r|] eqn:Hfind.
  - apply find_some in Hfind as [Hr Hname].
    apply String.eqb_eq in Hname.
    subst run; cbn; repeat split.
    + eauto.
    + intros Hnone; destruct (Hnone r Hr Hname).
    + intros ->; destruct Hr.
  - subst run; repeat split.
    + intros (r & Hr & Hname).
      apply (find_none _ _ Hfind) in Hr.
      apply String.eqb_neq in Hr; contradiction.
    + intros _ r rest ->; reflexivity.
    + intros ->; cbn; eauto.
Qed.

End GitAdapterFacts.

(** ** The command base class *)

Section ReduceIssues.
Import FotingoCommand.

Lemma reduceIssues_inr (l : list (Res Issue)) (acc collected : list Issue) :
  reduceIssues acc l = inr collected ->
  collected = acc ++ omap issueOf l
  /\ (forall e, In (inl e) l -> code e = NumCode 404).
Proof.
  revert acc; induction l as [|[e|i] l IH]; intros acc H; cbn in H.
  - injection H as <-. split; [by rewrite app_nil_r | intros ? []].
  - case_bool_decide as Hcode; [| discriminate].
    destruct (IH _ H) as [-> Hall]; split; [reflexivity |].
    intros e' [[= <-]|Hin]; auto.
  - destruct (IH _ H) as [-> Hall]; split.
    + by rewrite <- app_assoc.
    + intros e' [[=]|Hin]; auto.
Qed.



End ReduceIssues.

Section LocalChangesFacts.
Import FotingoCommand.
Context {W T : Type}.
Variable tracker : Tracker W.
Variable settle : forall A : Type, list A -> list A.
Hypothesis settle_perm : forall (A : Type) (l : list A), Permutation (settle A l) l.

(** Every key of the list is looked up, in the order of the list, and every
    lookup settles. *)
Lemma startAll_lookups (keys : list string) (w : W) :
  exists rs w',
    startAll (lookupIssue (T:=T) tracker) keys w = (inr rs, w', zip_with GetIssue keys rs)
    /\ length rs = length keys.
Proof.
  revert w; induction keys as [|k keys IH]; intros w.
  - exists [], w; split; reflexivity.
  - cbn [startAll]; unfold bind at 1, attempt, lookupIssue at 1, call.
    destruct (getIssue tracker k w) as [r w1].
    unfold bind at 1.
    destruct (IH w1) as (rs & w' & Hrun & Hlen); rewrite Hrun.
    exists (r :: rs), w'; cbn; rewrite app_nil_r, Hlen; split; reflexivity.
Qed.






Lemma getLocalChangesInformation_disabled (data : LocalChangesInput) (w : W) :
  trackerEnabled data = false ->
  getLocalChangesInformation (T:=T) tracker settle data w
  = (inr {| branchInfo := inputBranchInfo data; issues := [] |}, w, []).
Proof.
  intros Hen; unfold getLocalChangesInformation; rewrite Hen; reflexivity.
Qed.



End LocalChangesFacts.

Section SwitchToLast.
Import FotingoCommand.



End SwitchToLast.

Section ValidateFacts.
Import FotingoCommand.
Context {W T : Type}.
Variable settle : forall A : Type, list A -> list A.
Hypothesis settle_perm : forall (A : Type) (l : list A), Permutation (settle A l) l.

(** Every validation of the list is started, in the order of the list, and
    every check settles. *)
Lemma startAll_checks (validations : list (Validation W)) (w : W) :
  exists rs w',
    length rs = length validations
    /\ startAll (check (T:=T)) validations w
       = (inr (map (fun p => toMessage p.1 p.2) (zip (map snd validations) rs)),
          w',
          map (fun p => Validate p.1 p.2) (zip (map snd validations) rs)).
Proof.
  revert w; induction validations as [|[validation message] vs IH]; intros w.
  - exists [], w; split; reflexivity.
  - cbn [startAll]; unfold check at 1; run_eff.
    destruct (validation w) as [r w1].
    destruct (IH w1) as (rs & w' & Hlen & Hrun).
    exists (r :: rs), w'; split; [cbn; by rewrite Hlen |].
    destruct r as [e|v]; cbn; rewrite Hrun; cbn; by rewrite app_nil_r.
Qed.

(** The run of the pipeline: the validations are started; if what they hand
    on, in the order in which it arrives, comes through [switchToLast],
    [runCmd] is called, and otherwise the run ends there. *)
Lemma pipeline_run (validations : list (Validation W))
    (runCmd : W -> Res T * W) (w : W) :
  exists rs w1,
    length rs = length validations /\
    let settled := zip (map snd validations) rs in
    let checked := map (fun p => Validate (T:=T) p.1 p.2) settled in
    match switchToLast false
            (settle _ (map (fun p => toMessage p.1 p.2) settled ++ [inr None]))
    with
    | inl e => pipeline settle validations runCmd w = (inl e, w1, checked)
    | inr _ =>
        pipeline settle validations runCmd w
        = (fst (runCmd w1), snd (runCmd w1), checked ++ [RunCmd (fst (runCmd w1))])
    end.
Proof.
  destruct (startAll_checks validations w) as (rs & w1 & Hlen & Hrun).
  exists rs, w1; split; [done |]; cbn zeta.
  destruct (switchToLast _ _) as [e|u] eqn:Hlast;
    unfold pipeline, validate; unfold bind at 1; unfold bind at 1;
    rewrite Hrun, Hlast; cbn; [by rewrite app_nil_r |].
  unfold call; destruct (runCmd w1) as [r w2]; cbn.
  by rewrite app_nil_r.
Qed.


Lemma in_checked (settled : list (string * Res JsVal)) (e : Event T) :
  In e (map (fun p => Validate p.1 p.2) settled) ->
  exists m r, e = Validate m r /\ In (m, r) settled.
Proof.
  intros ([m r] & <- & Hin)%in_map_iff; eauto.
Qed.

Lemma in_arrived (settled : list (string * Res JsVal)) (x : Res (option string)) :
  In x (settle _ (map (fun p => toMessage p.1 p.2) settled ++ [inr None])) ->
  x = inr None \/ exists m r, x = toMessage m r /\ In (m, r) settled.
Proof.
  intros Hin.
  apply (Permutation_in _ (settle_perm _ _)) in Hin.
  apply in_app_or in Hin as [([m r] & <- & Hin)%in_map_iff|[<-|[]]]; eauto.
Qed.

Lemma arrived_in (settled : list (string * Res JsVal)) (m : string) (r : Res JsVal) :
  In (m, r) settled ->
  In (toMessage m r)
     (settle _ (map (fun p => toMessage p.1 p.2) settled ++ [inr None])).
Proof.
  intros Hin.
  apply (Permutation_in _ (Permutation_sym (settle_perm _ _))).
  apply in_or_app; left.
  apply in_map_iff; exists (m, r); done.
Qed.

(** What [run] adds to the pipeline: the exit with status 1 when the
    pipeline fails. *)
Lemma run_exits_on_failure
    (validations : list (Validation W)) (runCmd : W -> Res T * W) (w : W) :
  events (run settle validations runCmd w)
  = events (pipeline settle validations runCmd w)
    ++ match result (pipeline settle validations runCmd w) with
       | inl _ => [ProcessExit 1]
       | inr _ => []
       end.
Proof.
  unfold run; run_eff.
  destruct (pipeline settle validations runCmd w) as [[[e|t] w1] tr]; cbn;
    by rewrite ?app_nil_r.
Qed.


End ValidateFacts.

(** ** The cacheable decorator *)

Section CacheableFacts.
Import Cacheable.
Context {W : Type}.
Variable keyv : Keyv W.
Variable isCacheDisabled : bool.
Variable stringify : JsVal -> string.
Variable getPrefix : option (list JsVal -> string).
Variable minutes : option Z.
Variable className propertyKey : string.
Variable method : list JsVal -> W -> Res JsVal * W.

Ltac cache_cases E :=
  unfold cachedFunction in E; run_eff in E;
  repeat
    (match type of E with
     | context [if isCacheDisabled then _ else _] => destruct isCacheDisabled
     | context [get ?s ?k ?w] => destruct (get s k w) as [[?|?] ?]
     | context [if truthy ?v then _ else _] => destruct (truthy v) eqn:?
     | context [method ?a ?w] => destruct (method a w) as [[?|?] ?]
     | context [set ?s ?k ?v ?t ?w] => destruct (set s k v t w) as [[?|[]] ?]
     end; cbn [fst snd app] in E).

(** C10: what one call of the wrapper does, read off the store and the
    decorated method themselves.  With the cache enabled the store is asked
    for the computed key on the world of the call.  If the store answers
    with a falsy value (false, 0, the empty string, null, undefined, NaN),
    the decorated method is called on the arguments of the call, on the
    world the lookup left; what the method returns is handed to the store
    under the same key, and is what the wrapper returns.  If the store
    answers with a truthy value, the wrapper returns that value on the
    world the lookup left and neither the method nor the store is called
    again: a value served from the cache is a truthy one.  With the cache
    disabled the call is the call of the method. *)
Theorem falsy_cached_value_is_a_miss (functionArguments : list JsVal) (w : W) :
  let k := cacheKey stringify getPrefix className propertyKey functionArguments in
  let run := cachedFunction keyv isCacheDisabled stringify getPrefix minutes
               className propertyKey method functionArguments w in
  if isCacheDisabled
  then
    match method functionArguments w with
    | (r, w1) => run = (r, w1, [Method functionArguments r])
    end
  else
    match get keyv k w with
    | (inl e, w1) => run = (inl e, w1, [KeyvGet k (inl e)])
    | (inr cachedValue, w1) =>
        if truthy cachedValue
        then run = (inr cachedValue, w1, [KeyvGet k (inr cachedValue)])
        else
          match method functionArguments w1 with
          | (inl e, w2) =>
              run = (inl e, w2,
                     [KeyvGet k (inr cachedValue);
                      Method functionArguments (inl e)])
          | (inr v, w2) =>
              match set keyv k v (timeToLive minutes) w2 with
              | (s, w3) =>
                  run = (match s with inl e => inl e | inr _ => inr v end,
                         w3,
                         [KeyvGet k (inr cachedValue);
                          Method functionArguments (inr v);
                          KeyvSet k v (timeToLive minutes) s])
              end
          end
    end.
Proof.
  intros k run.
  assert (E : run = cachedFunction keyv isCacheDisabled stringify getPrefix
                      minutes className propertyKey method functionArguments w)
    by reflexivity; clearbody run.
  subst k.
  cache_cases E; exact E.
Qed.

End CacheableFacts.

(** * Further properties *)

(** ** The start command *)

Section MoreStartFacts.
Import Start.
Context {W : Type}.
Variable tracker : Tracker W.
Variable git : Git W.

(** The events of a run of [cmd], messages included. *)
Lemma cmd_events (args : FotingoArguments) (w : W) :
  let run := cmd tracker git args w in
  exists r1 r2 r3,
    events run
    = Emit (if create args then "Creating issue in Jira"
            else "Getting " +:+ issueId args +:+ " from Jira") BUG
      :: resolveCall args r1
      :: match r1 with
         | inl _ => []
         | inr i =>
             Emit ("Setting " +:+ key i +:+ " in progress") BOOKMARK
             :: SetIssueStatus IN_PROGRESS (key i) r2
             :: match r2 with
                | inl _ => []
                | inr i' =>
                    if noBranchIssue args then []
                    else
                      let name := getBranchNameForIssue git i' in
                      [ GetBranchNameForIssue i' name;
                        Emit ("Creating branch " +:+ name) TADA;
                        CreateBranchAndStashChanges name r3 ]
                end
         end.
Proof.
  intros run.
  assert (E : run = cmd tracker git args w) by reflexivity; clearbody run.
  unfold cmd, getOrCreateIssue, getCommandData, resolveCall in *; cbn in E.
  unfold setIssueInProgress, shouldCreateBranch, createBranch,
    justReturnTheIssue, emit in E; cbn in E.
  destruct (create args); run_eff in E.
  - destruct (createIssueForCurrentUser tracker _ w) as [[e1|i] w1].
    { subst run; exists (inl e1), (inl e1), (inl e1); reflexivity. }
    destruct (setIssueStatus tracker IN_PROGRESS (key i) w1) as [[e2|i'] w2].
    { subst run; exists (inr i), (inl e2), (inl e2); reflexivity. }
    destruct (noBranchIssue args); cbn [negb] in E;
      [change (bool_decide (false = true)) with false in E
      |change (bool_decide (true = true)) with true in E]; cbn in E.
    { subst run; exists (inr i), (inr i'), (inr tt); reflexivity. }
    destruct (createBranchAndStashChanges git _ w2) as [[e3|[]] w3]; subst run.
    + exists (inr i), (inr i'), (inl e3); reflexivity.
    + exists (inr i), (inr i'), (inr tt); reflexivity.
  - destruct (getIssue tracker _ w) as [[e1|i] w1].
    { subst run; exists (inl e1), (inl e1), (inl e1); reflexivity. }
    destruct (setIssueStatus tracker IN_PROGRESS (key i) w1) as [[e2|i'] w2].
    { subst run; exists (inr i), (inl e2), (inl e2); reflexivity. }
    destruct (noBranchIssue args); cbn [negb] in E;
      [change (bool_decide (false = true)) with false in E
      |change (bool_decide (true = true)) with true in E]; cbn in E.
    { subst run; exists (inr i), (inr i'), (inr tt); reflexivity. }
    destruct (createBranchAndStashChanges git _ w2) as [[e3|[]] w3]; subst run.
    + exists (inr i), (inr i'), (inl e3); reflexivity.
    + exists (inr i), (inr i'), (inr tt); reflexivity.
Qed.

(** X1: The whole run of [cmd], messages included: each call is announced by
    its message right before it, the message of the transition names the key
    of the issue that was resolved, the message of the branch names the
    branch that is created, and a step that is not reached is not
    announced. *)
Theorem start_announces_each_call (args : FotingoArguments) (w : W) :
  let run := cmd tracker git args w in
  exists r1 r2 r3,
    events run
    = Emit (if create args then "Creating issue in Jira"
            else "Getting " +:+ issueId args +:+ " from Jira") BUG
      :: resolveCall args r1
      :: match r1 with
         | inl _ => []
         | inr i =>
             Emit ("Setting " +:+ key i +:+ " in progress") BOOKMARK
             :: SetIssueStatus IN_PROGRESS (key i) r2
             :: match r2 with
                | inl _ => []
                | inr i' =>
                    if noBranchIssue args then []
                    else
                      let name := getBranchNameForIssue git i' in
                      [ GetBranchNameForIssue i' name;
                        Emit ("Creating branch " +:+ name) TADA;
                        CreateBranchAndStashChanges name r3 ]
                end
         end.
Proof. exact (cmd_events args w). Qed.

(** X2: The create flag decides which arguments count: with the flag the issue
    id has no effect on the run and no issue is fetched; without it the data
    for a new issue have no effect and no issue is created. *)
Theorem start_reads_only_the_chosen_request (args : FotingoArguments) (w : W) :
  let run := cmd tracker git args w in
  if create args
  then (forall id, cmd tracker git (withIssueId id args) w = run)
       /\ (forall id r, ~ In (GetIssue id r) (events run))
  else (forall c, cmd tracker git (withNewIssue c args) w = run)
       /\ (forall c r, ~ In (CreateIssueForCurrentUser c r) (events run)).
Proof.
  intros run.
  destruct (cmd_events args w) as (r1 & r2 & r3 & Hev).
  fold run in Hev.
  destruct (create args) eqn:Hcreate; split.
  - intros id; subst run; unfold cmd, getCommandData; cbn; by rewrite Hcreate.
  - intros id r Hin; rewrite Hev in Hin; unfold resolveCall in Hin.
    rewrite Hcreate in Hin.
    destruct Hin as [[=]|[[=]|Hin]].
    destruct r1 as [|i]; [done |].
    destruct Hin as [[=]|[[=]|Hin]].
    destruct r2 as [|i']; [done |].
    destruct (noBranchIssue args); [done |].
    destruct Hin as [[=]|[[=]|[[=]|[]]]].
  - intros c; subst run; unfold cmd, getCommandData; cbn; by rewrite Hcreate.
  - intros c r Hin; rewrite Hev in Hin; unfold resolveCall in Hin.
    rewrite Hcreate in Hin.
    destruct Hin as [[=]|[[=]|Hin]].
    destruct r1 as [|i]; [done |].
    destruct Hin as [[=]|[[=]|Hin]].
    destruct r2 as [|i']; [done |].
    destruct (noBranchIssue args); [done |].
    destruct Hin as [[=]|[[=]|[[=]|[]]]].
Qed.

End MoreStartFacts.

(** ** The command base class *)

Section MoreSwitchToLast.
Import FotingoCommand.

Lemma switchToLast_all_pass (l : list (Res (option string))) (seen : bool) :
  (forall x, In x l -> x = inr None) ->
  seen = true \/ l <> [] ->
  switchToLast seen l = inr tt.
Proof.
  revert seen; induction l as [|x l IH]; intros seen Hall Hne.
  - destruct Hne as [->|Hne]; [reflexivity | done].
  - rewrite (Hall x) by (by left); cbn.
    apply IH; [intros y Hy; apply Hall; by right | by left].
Qed.

Lemma switchToLast_one_message (l : list (Res (option string))) (seen : bool)
    (m : string) :
  (forall x, In x l -> x = inr None \/ x = inr (Some m)) ->
  In (inr (Some m)) l ->
  switchToLast seen l = inl (Error m).
Proof.
  revert seen; induction l as [|x l IH]; intros seen Hall Hin; [destruct Hin |].
  destruct (Hall x) as [->| ->]; [by left | | reflexivity].
  cbn; apply IH; [intros y Hy; apply Hall; by right |].
  destruct Hin as [[=]|Hin]; done.
Qed.

End MoreSwitchToLast.

Section MoreValidateFacts.
Import FotingoCommand.
Context {W T : Type}.
Variable settle : forall A : Type, list A -> list A.
Hypothesis settle_perm : forall (A : Type) (l : list A), Permutation (settle A l) l.

Lemma settle_in (A : Type) (l : list A) (x : A) : In x (settle A l) <-> In x l.
Proof.
  split; apply Permutation_in; [| apply Permutation_sym]; apply settle_perm.
Qed.

Lemma settled_in (A : Type) (l : list A) (x : A) : In x (settle A l) -> In x l.
Proof. apply settle_in. Qed.

Lemma returnIfFalse_cases (m : string) (v : JsVal) :
  returnIfFalse m v = (if bool_decide (v = VBool true) then None else Some m).
Proof. reflexivity. Qed.

(** X3: The source adds [of(undefined)] to the merged validations so that a
    command without validations still works: with no validation at all the
    pipeline is [runCmd], run on the same world. *)
Theorem no_validations_runs_the_command (runCmd : W -> Res T * W) (w : W) :
  pipeline settle [] runCmd w
  = (fst (runCmd w), snd (runCmd w), [RunCmd (fst (runCmd w))]).
Proof.
  unfold pipeline, validate; cbn [startAll]; run_eff.
  assert (settle (Res (option string)) [inr None] = [inr None]) as ->.
  { apply Permutation_length_1_inv, Permutation_sym, settle_perm. }
  cbn. by destruct (runCmd w).
Qed.


(** X5: When the validations that do not report [true] all report failure (none
    raises an error) and were registered with the same message, the
    pipeline fails with that message, in whatever order the validations
    settle. *)
Theorem failure_of_one_validation_gives_its_message
    (validations : list (Validation W)) (runCmd : W -> Res T * W) (w : W)
    (m : string) (v : JsVal) :
  let run := pipeline settle validations runCmd w in
  In (Validate m (inr v)) (events run) ->
  v <> VBool true ->
  (forall m' r', In (Validate m' r') (events run) ->
     r' = inr (VBool true) \/ (m' = m /\ exists v', r' = inr v')) ->
  result run = inl (Error m).
Proof.
  intros run Hin Hv Hothers; subst run.
  destruct (pipeline_run settle validations runCmd w) as (rs & w1 & Hlen & Hrun).
  cbn zeta in Hrun.
  set (settled := zip (map snd validations) rs) in *.
  set (checked := map (fun p => Validate (T:=T) p.1 p.2) settled) in *.
  assert (Hsub : forall e, In e checked ->
                   In e (events (pipeline settle validations runCmd w))).
  { intros e He. destruct (switchToLast _ _); rewrite Hrun; cbn [events snd];
      [done | apply in_or_app; by left]. }
  assert (Hchecked : In (Validate (T:=T) m (inr v)) checked).
  { destruct (switchToLast _ _); rewrite Hrun in Hin; cbn [events snd] in Hin;
      [done |].
    apply in_app_or in Hin as [Hin|[[=]|[]]]; done. }
  assert (Hlast : switchToLast false
            (settle _ (map (fun p => toMessage p.1 p.2) settled ++ [inr None]))
          = inl (Error m)).
  { apply switchToLast_one_message.
    - intros x [->|(m' & r' & -> & Hin')]%(in_arrived settle settle_perm);
        [by left |].
      destruct (Hothers m' r') as [->|[-> [v' ->]]].
      + apply Hsub, in_map_iff; exists (m', r'); done.
      + by left.
      + cbn; rewrite returnIfFalse_cases; case_bool_decide; eauto.
    - apply in_checked in Hchecked as (m' & r' & [= <- <-] & Hin').
      apply (arrived_in settle settle_perm) in Hin'; cbn in Hin'.
      rewrite returnIfFalse_cases in Hin'.
      by rewrite bool_decide_eq_false_2 in Hin'. }
  rewrite Hlast in Hrun; rewrite Hrun; reflexivity.
Qed.

End MoreValidateFacts.

Section DefaultValidations.
Import FotingoCommand.
Context {W T : Type}.
Variable git : Git W.
Variable baseBranch : string.
Variable settle : forall A : Type, list A -> list A.
Hypothesis settle_perm : forall (A : Type) (l : list A), Permutation (settle A l) l.
Variable runCmd : W -> Res T * W.

(** The run of the pipeline with the validations that [getValidations]
    registers: the repository check is started first, the base branch check
    on the world that it leaves. *)
Lemma default_pipeline_run (w : W) :
  let gitRepo := isGitRepo git w in
  let branch := defaultBranchExist git baseBranch (snd gitRepo) in
  let m1 := "Fotingo needs to run inside a git repository" in
  let m2 := "Couldn't find any branch that matched " +:+ baseBranch
            +:+ " to use as base branch" in
  let checked := [Validate (T:=T) m1 (fst gitRepo); Validate m2 (fst branch)] in
  pipeline settle (getValidations git baseBranch) runCmd w
  = match switchToLast false
            (settle _ [toMessage m1 (fst gitRepo); toMessage m2 (fst branch);
                       inr None])
    with
    | inl e => (inl e, snd branch, checked)
    | inr _ =>
        (fst (runCmd (snd branch)), snd (runCmd (snd branch)),
         checked ++ [RunCmd (fst (runCmd (snd branch)))])
    end.
Proof.
  cbn zeta.
  unfold pipeline, validate, getValidations; cbn [startAll].
  unfold check; run_eff.
  destruct (isGitRepo git w) as [[e1|v1] w1]; cbn [fst snd app];
    cbv beta iota;
    (destruct (defaultBranchExist git baseBranch w1) as [[e2|v2] w2]);
    cbn [fst snd toMessage app];
    destruct (switchToLast _ _); cbn; try reflexivity;
    by destruct (runCmd w2).
Qed.

Ltac default_run w :=
  rewrite (default_pipeline_run w); cbn zeta; unfold isGitRepo, defaultBranchExist.

(** X6: Inside a repository that has the base branch, [runCmd] runs, on the
    world that the two checks leave, and the pipeline ends as it does. *)
Theorem default_validations_pass (w w1 w2 : W) (root : string) :
  getRootDir git w = (inr root, w1) ->
  doesBranchExist git baseBranch w1 = (inr true, w2) ->
  let run := pipeline settle (getValidations git baseBranch) runCmd w in
  result run = fst (runCmd w2)
  /\ final run = snd (runCmd w2)
  /\ List.filter isRunCmd (events run) = [RunCmd (fst (runCmd w2))].
Proof.
  intros Hroot Hbranch run; subst run.
  default_run w; rewrite Hroot; cbn [fst snd]; rewrite Hbranch; cbn [fst snd].
  rewrite switchToLast_all_pass; [by repeat split | |].
  - intros x Hx%(settled_in settle settle_perm).
    destruct Hx as [<-|[<-|[<-|[]]]]; reflexivity.
  - right; intros Hnil.
    apply (f_equal (@length _)) in Hnil.
    rewrite (Permutation_length (settle_perm _ _)) in Hnil; discriminate.
Qed.

(** X7: The repository check only looks for [NOT_A_GIT_REPO]: when [getRootDir]
    fails with another git error, the check passes, and with the base branch
    there [runCmd] runs. *)
Theorem other_git_errors_pass_the_repository_check
    (w w1 w2 : W) (e : JsError) (t : GitErrorType) :
  getRootDir git w = (inl e, w1) ->
  code e = GitCode t ->
  t <> NOT_A_GIT_REPO ->
  doesBranchExist git baseBranch w1 = (inr true, w2) ->
  let run := pipeline settle (getValidations git baseBranch) runCmd w in
  result run = fst (runCmd w2)
  /\ List.filter isRunCmd (events run) = [RunCmd (fst (runCmd w2))].
Proof.
  intros Hroot Hcode Ht Hbranch run; subst run.
  default_run w; rewrite Hroot, Hcode; cbn [fst snd]; rewrite Hbranch;
    cbn [fst snd].
  rewrite bool_decide_eq_true_2 by done.
  rewrite switchToLast_all_pass; [by repeat split | |].
  - intros x Hx%(settled_in settle settle_perm).
    destruct Hx as [<-|[<-|[<-|[]]]]; reflexivity.
  - right; intros Hnil.
    apply (f_equal (@length _)) in Hnil.
    rewrite (Permutation_length (settle_perm _ _)) in Hnil; discriminate.
Qed.




End DefaultValidations.

Section MoreLocalChangesFacts.
Import FotingoCommand.
Context {W T : Type}.
Variable tracker : Tracker W.
Variable settle : forall A : Type, list A -> list A.
Hypothesis settle_perm : forall (A : Type) (l : list A), Permutation (settle A l) l.

Lemma isEmit_zip (keys : list string) (rs : list (Res Issue)) :
  List.filter isEmit (zip_with (@GetIssue T) keys rs) = [].
Proof.
  revert rs; induction keys as [|k keys IH]; intros [|r rs]; cbn; auto.
Qed.

Lemma outcome_zip (keys : list string) (rs : list (Res Issue)) :
  length rs = length keys ->
  omap outcome (zip_with (@GetIssue T) keys rs) = rs.
Proof.
  revert rs; induction keys as [|k keys IH]; intros [|r rs] Hlen;
    try discriminate; cbn; [reflexivity |].
  f_equal; apply IH; by injection Hlen.
Qed.

(** The events of [getLocalChangesInformation] when the tracker is enabled,
    the message included. *)
Lemma getLocalChangesInformation_events (data : LocalChangesInput) (w : W) :
  trackerEnabled data = true ->
  let keys := List.filter (isValidIssueName tracker) (allIssues data) in
  exists rs w',
    getLocalChangesInformation tracker settle data w
    = (match reduceIssues [] (settle _ rs) with
       | inl e => inl e
       | inr collected =>
           inr {| branchInfo := inputBranchInfo data; issues := collected |}
       end, w',
       (if (0 <? length (allIssues data))%nat
        then [Emit ("Getting information for "
                    +:+ String.concat ", " (allIssues data)) BUG]
        else [])
       ++ zip_with (@GetIssue T) keys rs)
    /\ length rs = length keys.
Proof.
  intros Hen keys.
  unfold getLocalChangesInformation; rewrite Hen; cbn [negb].
  fold keys.
  destruct (startAll_lookups (T:=T) tracker keys w) as (rs & w' & Hrun & Hlen).
  exists rs, w'; split; [| done].
  destruct (0 <? length (allIssues data))%nat.
  - unfold emit, bind at 1, tell. unfold bind at 1. rewrite Hrun.
    destruct (reduceIssues [] (settle (Res Issue) rs)); cbn;
      by rewrite ?app_nil_r.
  - unfold bind at 1, ret at 1. unfold bind at 1. rewrite Hrun.
    destruct (reduceIssues [] (settle (Res Issue) rs)); cbn;
      by rewrite ?app_nil_r.
Qed.

(** X11: The resolution is announced once, before the first lookup, when the
    tracker is enabled and there is at least one key, and the announcement
    names every key, the keys of the branch first and the requested issues
    after them, also the keys that are not looked up because they fail the
    pattern; otherwise nothing is announced. *)
Theorem resolution_is_announced_with_all_keys
    (data : LocalChangesInput) (w : W) :
  let run := getLocalChangesInformation (T:=T) tracker settle data w in
  let keys := map bi_issue (bi_issues (inputBranchInfo data))
              ++ inputIssues data in
  let announcement :=
    if trackerEnabled data && negb (bool_decide (keys = []))
    then [Emit ("Getting information for " +:+ String.concat ", " keys) BUG]
    else [] in
  exists lookups,
    events run = announcement ++ lookups
    /\ List.filter isEmit lookups = [].
Proof.
  intros run keys announcement; subst run announcement.
  destruct (trackerEnabled data) eqn:Hen.
  2: { rewrite getLocalChangesInformation_disabled by done.
       exists []; split; reflexivity. }
  destruct (getLocalChangesInformation_events data w Hen)
    as (rs & w' & -> & Hlen).
  cbn [events snd andb].
  exists (zip_with (@GetIssue T)
            (List.filter (isValidIssueName tracker) (allIssues data)) rs).
  split; [| apply isEmit_zip].
  f_equal. unfold allIssues; fold keys.
  destruct keys; reflexivity.
Qed.

(** X12: A resolution that succeeds hands back the branch information it was
    given and the issues that the lookups returned, in the order in which
    the lookups settled, which need not be the order of the keys. *)
Theorem issues_come_in_settling_order
    (data : LocalChangesInput) (w : W) (changes : LocalChanges) :
  let run := getLocalChangesInformation (T:=T) tracker settle data w in
  result run = inr changes ->
  branchInfo changes = inputBranchInfo data
  /\ issues changes
     = omap issueOf (settle _ (omap outcome (events run))).
Proof.
  intros run Hres; subst run.
  assert (Hnil : settle (Res Issue) [] = [])
    by apply Permutation_nil, Permutation_sym, settle_perm.
  destruct (trackerEnabled data) eqn:Hen.
  2: { rewrite getLocalChangesInformation_disabled in * by done.
       injection Hres as <-; cbn. by rewrite Hnil. }
  destruct (getLocalChangesInformation_events data w Hen)
    as (rs & w' & Hrun & Hlen).
  rewrite Hrun in *; cbn [events result fst snd] in *.
  assert (omap outcome
            ((if (0 <? length (allIssues data))%nat
              then [Emit (T:=T) ("Getting information for "
                          +:+ String.concat ", " (allIssues data)) BUG]
              else [])
             ++ zip_with (@GetIssue T)
                  (List.filter (isValidIssueName tracker) (allIssues data)) rs)
          = rs) as ->.
  { rewrite omap_app, outcome_zip by done.
    by destruct (0 <? length (allIssues data))%nat. }
  destruct (reduceIssues [] (settle _ rs)) as [e|collected] eqn:Hred;
    [discriminate |].
  injection Hres as <-; cbn.
  apply reduceIssues_inr in Hred as [-> _]; done.
Qed.

End MoreLocalChangesFacts.

(** ** The cacheable decorator *)

Section MoreCacheableFacts.
Import Cacheable.
Context {W : Type}.
Variable keyv : Keyv W.
Variable isCacheDisabled : bool.
Variable stringify : JsVal -> string.
Variable getPrefix : option (list JsVal -> string).
Variable minutes : option Z.
Variable className propertyKey : string.
Variable method : list JsVal -> W -> Res JsVal * W.

Local Abbreviation cached :=
  (cachedFunction keyv isCacheDisabled stringify getPrefix minutes
     className propertyKey method).
Local Abbreviation keyOf :=
  (cacheKey stringify getPrefix className propertyKey).

Ltac cache_run E :=
  unfold cachedFunction in E; run_eff in E;
  repeat
    (match type of E with
     | context [if isCacheDisabled then _ else _] => destruct isCacheDisabled
     | context [get ?s ?k ?w] => destruct (get s k w) as [[?|?] ?]
     | context [if truthy ?v then _ else _] => destruct (truthy v) eqn:?
     | context [method ?a ?w] => destruct (method a w) as [[?|?] ?]
     | context [set ?s ?k ?v ?t ?w] => destruct (set s k v t w) as [[?|[]] ?]
     end; cbn [fst snd app] in E).

Ltac in_events :=
  repeat match goal with
         | H : In _ (_ :: _) |- _ => destruct H as [H|H]
         | H : In _ [] |- _ => destruct H
         end;
  simplify_eq.

(** X13: What is written to the store is what the method returned, written under
    the key that was looked up and with the time to live of the decorator,
    and it is what the wrapper returns unless the write fails; when the
    method fails, the wrapper fails with the same error and nothing is
    written. *)
Theorem only_results_of_the_method_are_stored
    (functionArguments : list JsVal) (w : W) :
  let run := cached functionArguments w in
  (forall k v ttl r, In (KeyvSet k v ttl r) (events run) ->
     k = keyOf functionArguments
     /\ ttl = timeToLive minutes
     /\ In (Method functionArguments (inr v)) (events run)
     /\ result run = match r with
                     | inl e => inl e
                     | inr _ => inr v
                     end)
  /\ (forall e, In (Method functionArguments (inl e)) (events run) ->
        result run = inl e
        /\ List.filter isKeyvSet (events run) = []).
Proof.
  intros run.
  assert (E : run = cached functionArguments w) by reflexivity; clearbody run.
  cache_run E; subst run; cbn [events result fst snd]; split;
    try (intros ? ? ? ? Hin; in_events; cbn; auto 6; fail);
    try (intros ? Hin; in_events; cbn; auto; fail).
Qed.

(** X14: The wrapper has no fallback for a store that fails: when the lookup
    fails, the wrapper fails with its error and the method is not called;
    when the write fails, the wrapper fails with its error although the
    method had returned. *)
Theorem failures_of_the_store_fail_the_call
    (functionArguments : list JsVal) (w : W) :
  let run := cached functionArguments w in
  (forall k e, In (KeyvGet k (inl e)) (events run) ->
     result run = inl e /\ List.filter isMethod (events run) = [])
  /\ (forall k v ttl e, In (KeyvSet k v ttl (inl e)) (events run) ->
        result run = inl e
        /\ In (Method functionArguments (inr v)) (events run)).
Proof.
  intros run.
  assert (E : run = cached functionArguments w) by reflexivity; clearbody run.
  cache_run E; subst run; cbn [events result fst snd]; split;
    try (intros ? ? Hin; in_events; cbn; auto; fail);
    try (intros ? ? ? ? Hin; in_events; cbn; auto; fail).
Qed.

Section TwoCalls.
Hypothesis enabled : isCacheDisabled = false.

(** A store that hands back what was just written to it, and that answers a
    lookup the same way when it is asked again at once. *)
Hypothesis get_after_set :
  forall k v w w',
    set keyv k v (timeToLive minutes) w = (inr tt, w') ->
    get keyv k w' = (inr v, w').
Hypothesis get_again :
  forall k w r w', get keyv k w = (r, w') -> get keyv k w' = (r, w').

(** X15: After a call that returned a truthy value, the same call made again at
    once returns the same value from the store: the method is not called and
    the store is not written. *)
Theorem second_call_is_served_from_the_store
    (functionArguments : list JsVal) (w : W) (v : JsVal) :
  let first := cached functionArguments w in
  result first = inr v ->
  truthy v = true ->
  let second := cached functionArguments (final first) in
  result second = inr v
  /\ events second = [KeyvGet (keyOf functionArguments) (inr v)]
  /\ final second = final first.
Proof.
  intros first Hres Hv second; subst first second.
  unfold cachedFunction in *; rewrite enabled in *; run_eff in Hres; run_eff.
  set (k := keyOf functionArguments) in *.
  destruct (get keyv k w) as [[e|c] w1] eqn:Hget; cbn [fst snd] in *;
    [discriminate |].
  destruct (truthy c) eqn:Hc; cbn [fst snd] in *.
  - injection Hres as ->.
    rewrite (get_again _ _ _ _ Hget), Hc; cbn. done.
  - destruct (method functionArguments w1) as [[e|r] w2]; cbn [fst snd] in *;
      [discriminate |].
    destruct (set keyv k r (timeToLive minutes) w2) as [[e|[]] w3] eqn:Hset;
      cbn [fst snd] in *; [discriminate |].
    injection Hres as ->.
    rewrite (get_after_set _ _ _ _ Hset), Hv; cbn. done.
Qed.


End TwoCalls.

End MoreCacheableFacts.

Section CacheKeys.
Import Cacheable.

Lemma append_assoc (a b c : string) : (a +:+ b) +:+ c = a +:+ b +:+ c.
Proof.
  induction a as [|x a IH]; [reflexivity |].
  change (String x ((a +:+ b) +:+ c) = String x (a +:+ b +:+ c)).
  by rewrite IH.
Qed.

(** X17: The key does not keep the class name and the method name apart: a
    class [c_p] with a method [q] and a class [c] with a method [p_q] share
    their keys, for the same prefix and arguments. *)
Theorem cacheKey_joins_class_and_method
    (stringify : JsVal -> string) (getPrefix : option (list JsVal -> string))
    (c p q : string) (functionArguments : list JsVal) :
  cacheKey stringify getPrefix (c +:+ "_" +:+ p) q functionArguments
  = cacheKey stringify getPrefix c (p +:+ "_" +:+ q) functionArguments.
Proof.
  unfold cacheKey.
  destruct getPrefix as [f|]; cbn [String.append];
    rewrite !append_assoc; reflexivity.
Qed.

End CacheKeys.

(** ** The configuration folder *)

Section ConfigFolderFacts.
Import FotingoCommand.
Context {W : Type}.
Variable fs : Fs W.

(** A file system in which a directory that was just made is there. *)
Hypothesis made_exists :
  forall path w w', mkdirSync fs path w = (inr tt, w') ->
                    existsSync fs path w' = true.

(** X18: The folder is made only when it is not there, so that a command that
    runs after another one finds the folder, makes no directory and leaves
    the file system as it is. *)
Theorem createConfigFolder_makes_the_folder_once (home : string) (w : W) :
  let first := createConfigFolder fs home w in
  let path := home +:+ "/.fotingo_config" in
  List.filter isMkdirSync (events first)
  = (if existsSync fs path w then []
     else [MkdirSync path (fst (mkdirSync fs path w))])
  /\ (result first = inr tt ->
      createConfigFolder fs home (final first)
      = (inr tt, final first, [ExistsSync path true])).
Proof.
  cbn zeta; unfold createConfigFolder; run_eff.
  destruct (existsSync fs _ w) eqn:Hfound; cbn.
  - split; [reflexivity |]; intros _. rewrite Hfound; reflexivity.
  - destruct (mkdirSync fs _ w) as [[e|[]] w'] eqn:Hmade; cbn;
      (split; [reflexivity |]); intros [=].
    rewrite (made_exists _ _ _ Hmade); reflexivity.
Qed.

End ConfigFolderFacts.


(** ** The properties on concrete runs *)

Section Runs.
Import Fixtures.

Lemma lastFirst_perm (A : Type) (l : list A) : Permutation (lastFirst A l) l.
Proof. apply Permutation_sym, Permutation_rev. Qed.

(** The three tests of [createBranchAndStashChanges], on the in-memory
    repository. *)
Example test_fetch_and_create_from_latest_commit :
  events cleanRun
  = [ GitAdapter.Fetch (inr tt);
      GitAdapter.Status (inr {| GitAdapter.files := [] |});
      GitAdapter.Log ["-n1"; "remotes/origin/master"]
        (inr {| GitAdapter.latest := {| GitAdapter.hash := "547433c" |} |});
      GitAdapter.CheckoutBranch "FOTINGO-123" "547433c" (inr tt) ].
Proof. vm_compute. reflexivity. Qed.

Example test_stash_before_creating_the_branch :
  events dirtyRun
  = [ GitAdapter.Fetch (inr tt);
      GitAdapter.Status (inr {| GitAdapter.files := ["some file.txt"] |});
      GitAdapter.Stash ["save"; "--include-untracked"; "Auto generated by fotingo"]
        (inr tt);
      GitAdapter.Log ["-n1"; "remotes/origin/master"]
        (inr {| GitAdapter.latest := {| GitAdapter.hash := "547433c" |} |});
      GitAdapter.CheckoutBranch "FOTINGO-123" "547433c" (inr tt) ].
Proof. vm_compute. reflexivity. Qed.

Example test_branch_already_exists :
  code <$> (match result existingBranchRun with
            | inl e => Some e
            | inr _ => None
            end)
  = Some (GitCode BRANCH_ALREADY_EXISTS).
Proof. vm_compute. reflexivity. Qed.

Example test_getRemote_falls_back_to_first :
  result fallbackRun = inr origin.
Proof. vm_compute. reflexivity. Qed.

Example test_getRemote_no_remotes :
  result (GitAdapter.getRemote
            (GitAdapter.mkSimpleGit Repo
               memFetch memStatus memStash memLog memCheckoutBranch
               (fun _ w => (inr [], w)))
            "origin" cleanRepo)
  = inl (mkError (GitCode NO_REMOTE) "The repository does not have a remote").
Proof. vm_compute. reflexivity. Qed.

(** The values that the condition of the wrapper takes for a miss. *)
Example falsy_values :
  truthy (VBool false) = false /\ truthy (VNum 0) = false
  /\ truthy (VStr "") = false /\ truthy VNull = false
  /\ truthy VUndefined = false.
Proof. repeat split. Qed.

(** Starting work on [FOTINGO-123] without creating a branch emits the
    issue, in progress. *)
Example start_without_branch :
  result (Start.cmd boardTracker boardGit
            {| Start.noBranchIssue := true;
               Start.create := false;
               Start.arg_description := "";
               Start.arg_labels := [];
               Start.arg_project := "";
               Start.issueTitle := "";
               Start.arg_type := BUG_TYPE;
               Start.issueId := "FOTINGO-123" |} board)
  = inr (inr {| key := "FOTINGO-123";
                issue_title := "Fix this";
                issue_type := BUG_TYPE;
                issue_status := IN_PROGRESS |}).
Proof. vm_compute. reflexivity. Qed.

(** A lookup that fails with another code than 404 fails the whole
    resolution. *)
Example unavailable_tracker_fails_the_resolution :
  result unavailableRun = inl unavailable.
Proof. vm_compute. reflexivity. Qed.






(** C6 on a name that no remote has. *)
Lemma getRemote_named_or_first_witness :
  In (GitAdapter.GetRemotes true (inr [origin; upstream])) (events fallbackRun)
  /\ result fallbackRun = inr origin.
Proof.
  assert (H : In (GitAdapter.GetRemotes true (inr [origin; upstream]))
                 (events fallbackRun))
    by (vm_compute; tauto).
  split; [exact H |].
  apply (proj1 (proj2 (getRemote_named_or_first
                         memGit "some_remote" cleanRepo [origin; upstream] H)))
    with (rest := [upstream]); [| reflexivity].
  intros r [<-|[<-|[]]]; discriminate.
Defined.





(** C10 on a cache that holds 0 under the key of the call: the count is
    computed again, once, and what the method returned is stored for a
    day. *)
Lemma falsy_cached_value_is_a_miss_witness :
  cachedZeroRun
  = (inr (VNum 0),
     {| cache_store :=
          <["Jira_countOpenIssues_7" := (VNum 0, Some 86401000%Z)]>
            (cache_store cacheWithZero);
        cache_now := 1000%Z;
        cache_calls := 1 |},
     [Cacheable.KeyvGet "Jira_countOpenIssues_7" (inr (VNum 0));
      Cacheable.Method [VNum 7] (inr (VNum 0));
      Cacheable.KeyvSet "Jira_countOpenIssues_7" (VNum 0)
        (Some 86400000%Z) (inr tt)]).
Proof.
  exact (falsy_cached_value_is_a_miss
           memKeyv false showValue None (Some Cacheable.ONE_DAY)
           "Jira" "countOpenIssues" countOpenIssues
           [VNum 7] cacheWithZero).
Defined.

End Runs.

(** ** The further properties on concrete runs *)

Section MoreRuns.
Import Fixtures MoreFixtures.

Lemma memKeyv_get_after_set (k : string) (v : JsVal) (w w' : Cache) :
  Cacheable.set memKeyv k v
    (Cacheable.timeToLive (Some Cacheable.ONE_DAY)) w = (inr tt, w') ->
  Cacheable.get memKeyv k w' = (inr v, w').
Proof.
  intros [= <-]; cbn; unfold cacheGet; cbn.
  rewrite lookup_insert_eq.
  destruct (Z.ltb_spec (cache_now w + Cacheable.ONE_DAY * 60 * 1000)
              (cache_now w)) as [Hlt|Hle]; [| done].
  unfold Cacheable.ONE_DAY in Hlt; lia.
Qed.

Lemma memKeyv_get_again (k : string) (w : Cache) (r : Res JsVal) (w' : Cache) :
  Cacheable.get memKeyv k w = (r, w') ->
  Cacheable.get memKeyv k w' = (r, w').
Proof.
  cbn; unfold cacheGet.
  destruct (cache_store w !! k) as [[v [expires|]]|] eqn:Hk.
  - destruct (expires <? cache_now w)%Z eqn:Hexp; intros [= <- <-]; cbn.
    + by rewrite lookup_delete_eq.
    + by rewrite Hk, Hexp.
  - intros [= <- <-]; by rewrite Hk.
  - intros [= <- <-]; by rewrite Hk.
Qed.

Lemma memFs_made_exists (path : string) (w w' : gset string) :
  FotingoCommand.mkdirSync memFs path w = (inr tt, w') ->
  FotingoCommand.existsSync memFs path w' = true.
Proof.
  cbn; case_bool_decide; intros [= <-].
  apply bool_decide_eq_true_2; set_solver.
Qed.

Lemma no_validations_runs_the_command_witness :
  (forall (A : Type) (l : list A), Permutation (lastFirst A l) l)
  /\ FotingoCommand.pipeline lastFirst [] runCmd42 board
     = (inr 42%Z, board, [FotingoCommand.RunCmd (inr 42%Z)]).
Proof.
  split; [exact lastFirst_perm |].
  exact (no_validations_runs_the_command lastFirst lastFirst_perm
           runCmd42 board).
Defined.


Lemma failure_of_one_validation_gives_its_message_witness :
  (forall (A : Type) (l : list A), Permutation (lastFirst A l) l)
  /\ In (FotingoCommand.Validate
           "Couldn't find any branch that matched main to use as base branch"
           (inr (VBool false)))
        (events noBaseBranchRun)
  /\ result noBaseBranchRun
     = inl (Error
              "Couldn't find any branch that matched main to use as base branch").
Proof.
  assert (H : In (FotingoCommand.Validate
                    "Couldn't find any branch that matched main to use as base branch"
                    (inr (VBool false)))
                 (events noBaseBranchRun))
    by (vm_compute; tauto).
  split; [exact lastFirst_perm |]. split; [exact H |].
  apply (failure_of_one_validation_gives_its_message lastFirst lastFirst_perm
           (FotingoCommand.getValidations boardGit "main") runCmd42 board
           "Couldn't find any branch that matched main to use as base branch"
           (VBool false) H); [discriminate |].
  intros m' r' Hin; vm_compute in Hin.
  destruct Hin as [Hin|[Hin|[]]]; injection Hin as <- <-; eauto.
Defined.

Lemma default_validations_pass_witness :
  (forall (A : Type) (l : list A), Permutation (lastFirst A l) l)
  /\ getRootDir boardGit board = (inr "/home/fotingo", board)
  /\ doesBranchExist boardGit "master" board = (inr true, board)
  /\ result masterRun = inr 42%Z.
Proof.
  split; [exact lastFirst_perm |].
  split; [reflexivity |]. split; [reflexivity |].
  exact (proj1 (default_validations_pass boardGit "master" lastFirst
                  lastFirst_perm runCmd42 board board board "/home/fotingo"
                  eq_refl eq_refl)).
Defined.

Lemma other_git_errors_pass_the_repository_check_witness :
  (forall (A : Type) (l : list A), Permutation (lastFirst A l) l)
  /\ getRootDir crashingGit board = (inl gitCrashed, board)
  /\ code gitCrashed = GitCode GIT_COMMAND_FAILED
  /\ GIT_COMMAND_FAILED <> NOT_A_GIT_REPO
  /\ doesBranchExist crashingGit "master" board = (inr true, board)
  /\ result crashingRun = inr 42%Z.
Proof.
  assert (Hne : GIT_COMMAND_FAILED <> NOT_A_GIT_REPO) by discriminate.
  split; [exact lastFirst_perm |].
  split; [reflexivity |]. split; [reflexivity |]. split; [exact Hne |].
  split; [reflexivity |].
  exact (proj1 (other_git_errors_pass_the_repository_check crashingGit "master"
                  lastFirst lastFirst_perm runCmd42 board board board
                  gitCrashed GIT_COMMAND_FAILED eq_refl eq_refl Hne eq_refl)).
Defined.




Lemma issues_come_in_settling_order_witness :
  (forall (A : Type) (l : list A), Permutation (lastFirst A l) l)
  /\ result localChangesRun
     = inr {| FotingoCommand.branchInfo := branchInfo123;
              FotingoCommand.issues := [issue12; issue123] |}
  /\ [issue12; issue123]
     = omap FotingoCommand.issueOf
         (lastFirst _ (omap FotingoCommand.outcome (events localChangesRun))).
Proof.
  assert (H : result localChangesRun
              = inr {| FotingoCommand.branchInfo := branchInfo123;
                       FotingoCommand.issues := [issue12; issue123] |})
    by (vm_compute; reflexivity).
  split; [exact lastFirst_perm |]. split; [exact H |].
  exact (proj2 (issues_come_in_settling_order (T:=Z) boardTracker lastFirst
                  lastFirst_perm
                  (FotingoCommand.WithData branchInfo123 releaseData) board
                  _ H)).
Defined.

Lemma only_results_of_the_method_are_stored_witness :
  In (Cacheable.KeyvSet "Jira_countOpenIssues_7" (VNum 3)
        (Some 86400000%Z) (inr tt))
     (events (cachedThree emptyCache))
  /\ result (cachedThree emptyCache) = inr (VNum 3).
Proof.
  assert (H : In (Cacheable.KeyvSet "Jira_countOpenIssues_7" (VNum 3)
                    (Some 86400000%Z) (inr tt))
                 (events (cachedThree emptyCache)))
    by (vm_compute; tauto).
  split; [exact H |].
  exact (proj2 (proj2 (proj2 (proj1 (only_results_of_the_method_are_stored
                         memKeyv false showValue None (Some Cacheable.ONE_DAY)
                         "Jira" "countOpenIssues" countThree
                         [VNum 7] emptyCache)
                  _ _ _ _ H)))).
Defined.

Lemma failures_of_the_store_fail_the_call_witness :
  In (Cacheable.KeyvGet "Jira_countOpenIssues_7" (inl cantOpen))
     (events brokenRun)
  /\ result brokenRun = inl cantOpen
  /\ List.filter Cacheable.isMethod (events brokenRun) = [].
Proof.
  assert (H : In (Cacheable.KeyvGet "Jira_countOpenIssues_7"
                    (inl cantOpen))
                 (events brokenRun))
    by (vm_compute; tauto).
  split; [exact H |].
  exact (proj1 (failures_of_the_store_fail_the_call
                  brokenKeyv false showValue None (Some Cacheable.ONE_DAY)
                  "Jira" "countOpenIssues" countThree
                  [VNum 7] emptyCache)
           _ _ H).
Defined.

Lemma second_call_is_served_from_the_store_witness :
  result (cachedThree emptyCache) = inr (VNum 3)
  /\ truthy (VNum 3) = true
  /\ result (cachedThree (final (cachedThree emptyCache))) = inr (VNum 3)
  /\ events (cachedThree (final (cachedThree emptyCache)))
     = [Cacheable.KeyvGet "Jira_countOpenIssues_7" (inr (VNum 3))].
Proof.
  assert (H : result (cachedThree emptyCache) = inr (VNum 3))
    by (vm_compute; reflexivity).
  split; [exact H |]. split; [reflexivity |].
  destruct (second_call_is_served_from_the_store
              memKeyv false showValue None (Some Cacheable.ONE_DAY)
              "Jira" "countOpenIssues" countThree eq_refl
              memKeyv_get_after_set memKeyv_get_again
              [VNum 7] emptyCache (VNum 3) H eq_refl)
    as (Hres & Hev & _).
  split; [exact Hres | exact Hev].
Defined.


Lemma createConfigFolder_makes_the_folder_once_witness :
  result (FotingoCommand.createConfigFolder memFs "/home/fotingo" ∅) = inr tt
  /\ List.filter FotingoCommand.isMkdirSync
       (events (FotingoCommand.createConfigFolder memFs "/home/fotingo"
                  (final (FotingoCommand.createConfigFolder memFs
                            "/home/fotingo" ∅))))
     = [].
Proof.
  assert (H : result (FotingoCommand.createConfigFolder memFs "/home/fotingo" ∅)
              = inr tt)
    by (vm_compute; reflexivity).
  split; [exact H |].
  rewrite (proj2 (createConfigFolder_makes_the_folder_once
                    memFs memFs_made_exists "/home/fotingo" ∅) H).
  reflexivity.
Defined.

End MoreRuns.
